(** * Embedded-object widgets of the page view (zim/gui/insertedobjects.py)

    A shallow embedding of the widget classes [InsertedObjectWidget],
    [TextViewWidget], [UnkownObjectWidget], of the buffer class
    [UnkownObjectBuffer] and of the object type [UnknownInsertedObject],
    followed by the properties of the cursor hand-off protocol, of the
    inherited editability, of the fallback widget and of the model
    round trip.

    Python objects that are shared and mutated (text buffers, attribute
    dictionaries, the parent container) live in a store and are named by
    references; a method is a state transformer over that store which may
    fail where Python would raise.  The toolkit is modelled only as far as
    the module uses it: a text buffer is its characters and its two marks,
    a text view is its buffer and its flags, a box is the list of its
    children. *)

From stdpp Require Import gmap strings list fin_maps.
From Stdlib Require Import ZArith Ascii.

(** ** Python values and the [%] operator *)

Module Py.

(** The value of a handler: Python's [None], or a boolean. *)
Inductive value := PyNone | PyBool (b : bool).

(** [bool(s)] for a string. *)
Definition truthy (s : string) : bool := negb (String.eqb s "").

(** [str(v)] for a value that is [None] or a string: what [%s] prints. *)
Definition str (v : option string) : string :=
  match v with
  | None => "None"
  | Some s => s
  end.

(** [fmt % arg] with one argument that is not a tuple.  [used] tells
    whether the argument was consumed already.  The templates of this
    module hold the conversions [%s] and [%%] only; any other
    conversion is outside the model and yields [None], as do the two
    [TypeError]s of Python (a second [%s], no [%s] at all) and the
    [ValueError] of a trailing [%]. *)
Fixpoint percent_go (fmt arg : string) (used : bool) : option (string * bool) :=
  match fmt with
  | EmptyString => Some (EmptyString, used)
  | String c rest =>
      if Ascii.eqb c "%" then
        match rest with
        | EmptyString => None
        | String d rest' =>
            if Ascii.eqb d "%" then
              prod_map (String "%"%char) id <$> percent_go rest' arg used
            else if Ascii.eqb d "s" then
              if used then None
              else prod_map (String.append arg) id <$> percent_go rest' arg true
            else None
        end
      else prod_map (String c) id <$> percent_go rest arg used
  end.

Definition percent (fmt arg : string) : option string :=
  match percent_go fmt arg false with
  | Some (s, true) => Some s
  | _ => None
  end.

(** No conversion starts in [s]. *)
Fixpoint plain (s : string) : bool :=
  match s with
  | EmptyString => true
  | String c rest => negb (Ascii.eqb c "%") && plain rest
  end.

End Py.

(** ** Objects, signals and the store *)

(** A reference names a Python object that is shared and mutated. *)
Definition ref := positive.

(** Bound methods of the widget that are connected to signals; anything
    connected by other code is [CbForeign]. *)
Inductive Callback :=
  | CbOnMoveCursor
  | CbOnParentSet
  | CbOnParentNotify
  | CbForeign (n : nat).

(** The signals of [__gsignals__]. *)
Inductive Signal := LinkClicked | LinkEnter | LinkLeave | GrabCursor | ReleaseCursor.

(** What the embedding page view can observe of the widget, in the order
    in which it happens. *)
Inductive Effect :=
  | Emit (s : Signal) (position : Z)
  | PlaceCursor (buffer : ref) (offset : nat)
  | GrabFocus.

Module Gtk.

(** [Gtk.MovementStep]. *)
Inductive MovementStep :=
  | LOGICAL_POSITIONS | VISUAL_POSITIONS | WORDS | DISPLAY_LINES
  | DISPLAY_LINE_ENDS | PARAGRAPHS | PARAGRAPH_ENDS | PAGES
  | BUFFER_ENDS | HORIZONTAL_PAGES.

Inductive PolicyType := ALWAYS | AUTOMATIC | NEVER.
Inductive ShadowType := NONE | SHADOW_IN | SHADOW_OUT.

(** A text buffer: its characters and the offsets of its two marks.
    [object_attrib] is the attribute that [UnkownObjectBuffer] adds; a
    plain [Gtk.TextBuffer] has none. *)
Record TextBuffer := mkTextBuffer {
  text : string;
  insert_mark : nat;
  selection_bound : nat;
  object_attrib : option ref
}.

Inductive TextMark := MarkInsert | MarkSelectionBound.

(** The offsets of a buffer's marks lie inside its content. *)
Definition well_formed (b : TextBuffer) : Prop :=
  (insert_mark b ≤ String.length (text b))%nat ∧
  (selection_bound b ≤ String.length (text b))%nat.

(** An iterator is a position in the content it was taken from. *)
Record TextIter := mkTextIter { iter_text : string; iter_offset : nat }.

Definition new_buffer : TextBuffer :=
  {| text := ""; insert_mark := 0; selection_bound := 0; object_attrib := None |}.

Definition get_bounds (b : TextBuffer) : TextIter * TextIter :=
  (mkTextIter (text b) 0, mkTextIter (text b) (String.length (text b))).

Definition get_insert (b : TextBuffer) : TextMark := MarkInsert.

Definition get_iter_at_mark (b : TextBuffer) (m : TextMark) : TextIter :=
  match m with
  | MarkInsert => mkTextIter (text b) (insert_mark b)
  | MarkSelectionBound => mkTextIter (text b) (selection_bound b)
  end.

Definition is_start (it : TextIter) : bool := Nat.eqb (iter_offset it) 0.

Definition is_end (it : TextIter) : bool :=
  Nat.eqb (iter_offset it) (String.length (iter_text it)).

(** [start.get_text(end)] *)
Definition get_text (start end_ : TextIter) : string :=
  String.substring (iter_offset start) (iter_offset end_ - iter_offset start)
    (iter_text start).

(** [place_cursor] moves both marks. *)
Definition place_cursor (b : TextBuffer) (where_ : TextIter) : TextBuffer :=
  {| text := text b; insert_mark := iter_offset where_;
     selection_bound := iter_offset where_; object_attrib := object_attrib b |}.

(** [set_text] replaces the content; the marks end up behind it. *)
Definition set_text (b : TextBuffer) (data : string) : TextBuffer :=
  {| text := data; insert_mark := String.length data;
     selection_bound := String.length data; object_attrib := object_attrib b |}.

(** A text view: its buffer, its flags and the handlers connected to its
    move-cursor signal. *)
Record TextView := mkTextView {
  view_buffer : option ref;
  editable : bool;
  cursor_visible : bool;
  has_focus : bool;
  move_cursor_handlers : list Callback
}.

(** A new text view.  [ScrolledTextView] of [zim.gui.widgets], which
    makes the view of the widget, is not part of this module: the view
    it returns is taken to be a new one without a buffer; the
    constructor of the widget sets its buffer and its [editable] flag
    itself. *)
Definition new_view : TextView :=
  {| view_buffer := None; editable := true; cursor_visible := true;
     has_focus := false; move_cursor_handlers := [] |}.

Definition set_buffer (v : TextView) (b : ref) : TextView :=
  {| view_buffer := Some b; editable := editable v;
     cursor_visible := cursor_visible v; has_focus := has_focus v;
     move_cursor_handlers := move_cursor_handlers v |}.

Definition set_editable (v : TextView) (setting : bool) : TextView :=
  {| view_buffer := view_buffer v; editable := setting;
     cursor_visible := cursor_visible v; has_focus := has_focus v;
     move_cursor_handlers := move_cursor_handlers v |}.

Definition set_cursor_visible (v : TextView) (setting : bool) : TextView :=
  {| view_buffer := view_buffer v; editable := editable v;
     cursor_visible := setting; has_focus := has_focus v;
     move_cursor_handlers := move_cursor_handlers v |}.

Definition take_focus (v : TextView) : TextView :=
  {| view_buffer := view_buffer v; editable := editable v;
     cursor_visible := cursor_visible v; has_focus := true;
     move_cursor_handlers := move_cursor_handlers v |}.

Definition connect_move_cursor (v : TextView) (cb : Callback) : TextView :=
  {| view_buffer := view_buffer v; editable := editable v;
     cursor_visible := cursor_visible v; has_focus := has_focus v;
     move_cursor_handlers := move_cursor_handlers v ++ [cb] |}.

(** The container a widget is anchored in (the page view): its
    [editable] property and the handlers of [notify::editable] with
    their handler ids, in the order of connection. *)
Record Container := mkContainer {
  c_editable : bool;
  notify_editable : list (positive * Callback)
}.

(** Children of a box, with the arguments of [pack_start]. *)
Record Packing := mkPacking { expand : bool; fill : bool; padding : nat }.

#[local] Unset Elimination Schemes.
Inductive Widget :=
  | Label (label : string)
  | HBox (homogeneous : bool) (spacing : nat) (children : list (Widget * Packing))
  | ScrolledTextView (monospace : bool) (hpolicy vpolicy : PolicyType)
      (shadow : ShadowType).
#[local] Set Elimination Schemes.

Definition Box := list (Widget * Packing).

(** [pack_start] appends; the child is known by its slot afterwards. *)
Definition pack_start (box : Box) (child : Widget) (e f : bool) (p : nat) : Box * nat :=
  (box ++ [(child, mkPacking e f p)], length box).

(** [reorder_child(child, position)] for the child in [slot]. *)
Definition reorder_child (box : Box) (slot position : nat) : Box :=
  match box !! slot with
  | Some c => take position (delete slot box) ++ c :: drop position (delete slot box)
  | None => box
  end.

End Gtk.

(** The store.  [next_handler] is the counter that numbers signal
    connections; a handler id is never zero. *)
Record World := mkWorld {
  buffers : gmap ref Gtk.TextBuffer;
  dicts : gmap ref (gmap string string);
  containers : gmap ref Gtk.Container;
  next_handler : positive;
  trace : list Effect
}.

(** A computation over the store that may raise. *)
Definition M (A : Type) : Type := World -> option (A * World).

#[export] Instance M_ret : MRet M := λ A a w, Some (a, w).
#[export] Instance M_bind : MBind M :=
  λ A B f m w, match m w with Some (a, w') => f a w' | None => None end.

Definition lift {A} (o : option A) : M A :=
  λ w, match o with Some a => Some (a, w) | None => None end.

Definition log (e : Effect) : M unit :=
  λ w, Some (tt, mkWorld (buffers w) (dicts w) (containers w) (next_handler w)
                   (trace w ++ [e])).

Definition read_buffer (r : ref) : M Gtk.TextBuffer :=
  λ w, lift (buffers w !! r) w.

Definition write_buffer (r : ref) (b : Gtk.TextBuffer) : M unit :=
  λ w, Some (tt, mkWorld (<[r := b]> (buffers w)) (dicts w) (containers w)
                   (next_handler w) (trace w)).

Definition alloc_buffer (b : Gtk.TextBuffer) : M ref :=
  λ w, let r := fresh (dom (buffers w)) in
       Some (r, mkWorld (<[r := b]> (buffers w)) (dicts w) (containers w)
                  (next_handler w) (trace w)).

Definition read_dict (r : ref) : M (gmap string string) :=
  λ w, lift (dicts w !! r) w.

Definition write_dict (r : ref) (d : gmap string string) : M unit :=
  λ w, Some (tt, mkWorld (buffers w) (<[r := d]> (dicts w)) (containers w)
                   (next_handler w) (trace w)).

Definition alloc_dict (d : gmap string string) : M ref :=
  λ w, let r := fresh (dom (dicts w)) in
       Some (r, mkWorld (buffers w) (<[r := d]> (dicts w)) (containers w)
                  (next_handler w) (trace w)).

Definition read_container (r : ref) : M Gtk.Container :=
  λ w, lift (containers w !! r) w.

Definition write_container (r : ref) (c : Gtk.Container) : M unit :=
  λ w, Some (tt, mkWorld (buffers w) (dicts w) (<[r := c]> (containers w))
                   (next_handler w) (trace w)).

(** [obj.connect('notify::editable', cb)] on a container. *)
Definition connect_notify (r : ref) (cb : Callback) : M positive :=
  λ w, match containers w !! r with
       | Some c =>
           let h := next_handler w in
           let c' := Gtk.mkContainer (Gtk.c_editable c)
                       (Gtk.notify_editable c ++ [(h, cb)]) in
           Some (h, mkWorld (buffers w) (dicts w) (<[r := c']> (containers w))
                      (Pos.succ h) (trace w))
       | None => None
       end.

(** [obj.disconnect(h)] on a container. *)
Definition disconnect (r : ref) (h : positive) : M unit :=
  c ← read_container r;
  write_container r
    (Gtk.mkContainer (Gtk.c_editable c)
       (filter (λ e, e.1 ≠ h) (Gtk.notify_editable c))).

(** ** The module *)

(** Collaborators that live in other modules: the translation function
    [_] and [ObjectManager.find_plugin], which returns the tuple
    [(key, name, activatable, klass)] of a plugin or nothing. *)
Record Env := mkEnv {
  gettext : string → string;
  find_plugin : string → option (string * string * bool * string)
}.

Definition POSITION_BEGIN : Z := 1.
Definition POSITION_END : Z := 2.

Module InsertedObjectWidget.

Record t := mk {
  border_width : nat;
  _has_cursor : bool;
  vbox : Gtk.Box;
  vbox_css : option (string * string);
  parent : option ref;
  parent_set_handlers : list Callback
}.

Definition __init__ : t :=
  {| border_width := 3; _has_cursor := false; vbox := [];
     vbox_css := Some ("zim-pageview-object", "border: 1px solid @text_color");
     parent := None; parent_set_handlers := [] |}.

Definition has_cursor (self : t) : bool := _has_cursor self.

Definition set_has_cursor (self : t) (has_cursor : bool) : t :=
  mk (border_width self) has_cursor (vbox self) (vbox_css self) (parent self)
     (parent_set_handlers self).

Definition set_vbox (self : t) (box : Gtk.Box) : t :=
  mk (border_width self) (_has_cursor self) box (vbox_css self) (parent self)
     (parent_set_handlers self).

Definition set_parent (self : t) (p : option ref) : t :=
  mk (border_width self) (_has_cursor self) (vbox self) (vbox_css self) p
     (parent_set_handlers self).

Definition connect_parent_set (self : t) (cb : Callback) : t :=
  mk (border_width self) (_has_cursor self) (vbox self) (vbox_css self)
     (parent self) (parent_set_handlers self ++ [cb]).

Definition get_parent (self : t) : option ref := parent self.

(** The base class has no class handler for its signals: emitting is
    all that happens inside the module. *)
Definition grab_cursor (self : t) (position : Z) : M t :=
  log (Emit GrabCursor position);; mret self.

Definition release_cursor (self : t) (position : Z) : M t :=
  log (Emit ReleaseCursor position);; mret self.

End InsertedObjectWidget.

Module TextViewWidget.

(** [base] holds the state inherited from [InsertedObjectWidget]. *)
Record t := mk {
  base : InsertedObjectWidget.t;
  buffer : ref;
  view : Gtk.TextView;
  parent_notify_h : option positive
}.

Definition set_base (self : t) (b : InsertedObjectWidget.t) : t :=
  mk b (buffer self) (view self) (parent_notify_h self).

Definition set_view (self : t) (v : Gtk.TextView) : t :=
  mk (base self) (buffer self) v (parent_notify_h self).

Definition set_parent_notify_h (self : t) (h : option positive) : t :=
  mk (base self) (buffer self) (view self) h.

(** Methods inherited from the base class. *)
Definition has_cursor (self : t) : bool :=
  InsertedObjectWidget.has_cursor (base self).

Definition set_has_cursor (self : t) (has_cursor : bool) : t :=
  set_base self (InsertedObjectWidget.set_has_cursor (base self) has_cursor).

Definition get_parent (self : t) : option ref :=
  InsertedObjectWidget.get_parent (base self).

Definition release_cursor (self : t) (position : Z) : M t :=
  b ← InsertedObjectWidget.release_cursor (base self) position;
  mret (set_base self b).

Definition _init_signals (self : t) : t :=
  let self := set_view self (Gtk.connect_move_cursor (view self) CbOnMoveCursor) in
  let self :=
    set_base self (InsertedObjectWidget.connect_parent_set (base self) CbOnParentSet) in
  set_parent_notify_h self None.

Definition __init__ (buffer : ref) : t :=
  let b := InsertedObjectWidget.__init__ in
  let b := InsertedObjectWidget.set_has_cursor b true in
  let win := Gtk.ScrolledTextView true Gtk.AUTOMATIC Gtk.NEVER Gtk.NONE in
  let view := Gtk.new_view in
  let view := Gtk.set_buffer view buffer in
  let view := Gtk.set_editable view true in
  let b :=
    InsertedObjectWidget.set_vbox b
      (Gtk.pack_start (InsertedObjectWidget.vbox b) win true true 0).1 in
  _init_signals (mk b buffer view None).

Definition set_editable (self : t) (editable : bool) : t :=
  let v := Gtk.set_editable (view self) editable in
  let v := Gtk.set_cursor_visible v editable in
  set_view self v.

(** The handlers receive the widget itself as [widget]; the argument,
    like [prop] and [args] of [on_parent_notify], is not used. *)
Definition on_parent_set (self : t) (old_parent : option ref) : M t :=
  self ← match old_parent, parent_notify_h self with
         | Some old, Some h =>
             disconnect old h;;
             mret (set_parent_notify_h self None)
         | _, _ => mret self
         end;
  match get_parent self with
  | Some parent =>
      p ← read_container parent;
      let self := set_editable self (Gtk.c_editable p) in
      h ← connect_notify parent CbOnParentNotify;
      mret (set_parent_notify_h self (Some h))
  | None => mret self
  end.

Definition on_parent_notify (self : t) : M t :=
  parent ← lift (get_parent self);
  p ← read_container parent;
  mret (set_editable self (Gtk.c_editable p)).

(** [self.buffer.place_cursor(where)] and [self.view.grab_focus()]. *)
Definition buffer_place_cursor (self : t) (where_ : Gtk.TextIter) : M unit :=
  b ← read_buffer (buffer self);
  write_buffer (buffer self) (Gtk.place_cursor b where_);;
  log (PlaceCursor (buffer self) (Gtk.iter_offset where_)).

Definition view_grab_focus (self : t) : M t :=
  log GrabFocus;;
  mret (set_view self (Gtk.take_focus (view self))).

Definition do_grab_cursor (self : t) (position : Z) : M t :=
  b ← read_buffer (buffer self);
  let '(begin, end_) := Gtk.get_bounds b in
  (if Z.eqb position POSITION_BEGIN then
     buffer_place_cursor self begin
   else
     buffer_place_cursor self end_);;
  view_grab_focus self.

(** [grab_cursor] emits the signal; [do_grab_cursor] is its class
    handler. *)
Definition grab_cursor (self : t) (position : Z) : M t :=
  b ← InsertedObjectWidget.grab_cursor (base self) position;
  do_grab_cursor (set_base self b) position.

Definition on_move_cursor (self : t) (view : Gtk.TextView)
    (step_size : Gtk.MovementStep) (count : Z) (extend_selection : bool)
    : M (t * Py.value) :=
  r ← lift (Gtk.view_buffer view);
  buffer ← read_buffer r;
  let iter := Gtk.get_iter_at_mark buffer (Gtk.get_insert buffer) in
  if (Gtk.is_start iter || Gtk.is_end iter) && negb extend_selection then
    if Gtk.is_start iter && Z.ltb count 0 then
      self ← release_cursor self POSITION_BEGIN;
      mret (self, Py.PyNone)
    else if Gtk.is_end iter && Z.ltb 0 count then
      self ← release_cursor self POSITION_END;
      mret (self, Py.PyNone)
    else mret (self, Py.PyNone)
  else mret (self, Py.PyNone).

End TextViewWidget.

Module UnkownObjectWidget.

Definition _add_load_plugin_bar (env : Env) (self : TextViewWidget.t)
    (plugin : string * string * bool * string) : M TextViewWidget.t :=
  let '(key, name, activatable, klass) := plugin in
  text ← lift (Py.percent
                 (gettext env "Plugin %s is required to display this object.")
                 name);
  let label := Gtk.Label text in
  let hbox := (Gtk.pack_start [] label true true 0).1 in
  let hbox := Gtk.HBox false 5 hbox in
  let b := TextViewWidget.base self in
  let '(box, slot) := Gtk.pack_start (InsertedObjectWidget.vbox b) hbox true true 0 in
  let box := Gtk.reorder_child box slot 0 in
  mret (TextViewWidget.set_base self (InsertedObjectWidget.set_vbox b box)).

Definition __init__ (env : Env) (buffer : ref) : M TextViewWidget.t :=
  let self := TextViewWidget.__init__ buffer in
  b ← read_buffer buffer;
  attrib ← lift (Gtk.object_attrib b);
  d ← read_dict attrib;
  let type := d !! "type" in
  let plugin :=
    match type with
    | Some ty => if Py.truthy ty then find_plugin env ty else None
    | None => None
    end in
  match plugin with
  | Some plugin => _add_load_plugin_bar env self plugin
  | None =>
      text ← lift (Py.percent
                     (gettext env "No plugin available to display objects of type: %s")
                     (Py.str type));
      let label := Gtk.Label text in
      let b := TextViewWidget.base self in
      let '(box, slot) := Gtk.pack_start (InsertedObjectWidget.vbox b) label true true 0 in
      let box := Gtk.reorder_child box slot 0 in
      mret (TextViewWidget.set_base self (InsertedObjectWidget.set_vbox b box))
  end.

End UnkownObjectWidget.

Module UnkownObjectBuffer.

(** The buffer keeps the dictionary it is given, not a copy of it. *)
Definition __init__ (attrib : ref) (data : string) : M ref :=
  let b := Gtk.new_buffer in
  let b := Gtk.mkTextBuffer (Gtk.text b) (Gtk.insert_mark b)
             (Gtk.selection_bound b) (Some attrib) in
  alloc_buffer (Gtk.set_text b data).

Definition get_object_data (self : ref) : M (ref * string) :=
  b ← read_buffer self;
  stored ← lift (Gtk.object_attrib b);
  d ← read_dict stored;
  attrib ← alloc_dict d;
  let '(start, end_) := Gtk.get_bounds b in
  let data := Gtk.get_text start end_ in
  mret (attrib, data).

End UnkownObjectBuffer.

Module UnknownInsertedObject.

Definition name : string := "unknown".

(** [attrib.setdefault('type', self.name)] *)
Definition parse_attrib (attrib : ref) : M ref :=
  d ← read_dict attrib;
  match d !! "type" with
  | Some _ => mret tt
  | None => write_dict attrib (<["type" := name]> d)
  end;;
  mret attrib.

Definition model_from_data (attrib : ref) (data : string) : M ref :=
  UnkownObjectBuffer.__init__ attrib data.

Definition data_from_model (buffer : ref) : M (ref * string) :=
  UnkownObjectBuffer.get_object_data buffer.

Definition create_widget (env : Env) (buffer : ref) : M TextViewWidget.t :=
  UnkownObjectWidget.__init__ env buffer.

End UnknownInsertedObject.

(** [d[k] = v] on a dictionary of the store, as a caller of the module
    may do with an attrib it holds. *)
Definition dict_setitem (r : ref) (k v : string) : M unit :=
  d ← read_dict r;
  write_dict r (<[k := v]> d).

(** ** Delivery of signals by the toolkit

    The handlers above run when the toolkit emits the signal they are
    connected to.  The functions below are the toolkit side of that:
    they change the property and call the connected handlers in the
    order of connection.  Handlers connected by other code do not touch
    the widget. *)

Module Toolkit.

Import TextViewWidget.

Fixpoint run_parent_set (cbs : list Callback) (self : t) (old_parent : option ref)
    : M t :=
  match cbs with
  | [] => mret self
  | cb :: rest =>
      self ← match cb with
             | CbOnParentSet => on_parent_set self old_parent
             | _ => mret self
             end;
      run_parent_set rest self old_parent
  end.

(** The parent of the widget becomes [new]; parent-set is emitted with
    the previous parent. *)
Definition parent_changed (self : t) (new : option ref) : M t :=
  let old_parent := get_parent self in
  let self := set_base self (InsertedObjectWidget.set_parent (base self) new) in
  run_parent_set (InsertedObjectWidget.parent_set_handlers (base self)) self old_parent.

(** [gtk_widget_set_parent]: refused when the widget has a parent. *)
Definition widget_set_parent (self : t) (parent : ref) : M t :=
  match get_parent self with
  | None => read_container parent;; parent_changed self (Some parent)
  | Some _ => mret self
  end.

(** [gtk_widget_unparent] *)
Definition widget_unparent (self : t) : M t :=
  match get_parent self with
  | Some _ => parent_changed self None
  | None => mret self
  end.

Fixpoint run_notify (cbs : list (positive * Callback)) (self : t) : M t :=
  match cbs with
  | [] => mret self
  | (_, cb) :: rest =>
      self ← match cb with
             | CbOnParentNotify => on_parent_notify self
             | _ => mret self
             end;
      run_notify rest self
  end.

(** [set_editable] on a container: the property is notified when it
    changes. *)
Definition container_set_editable (self : t) (container : ref) (setting : bool)
    : M t :=
  c ← read_container container;
  if Bool.eqb (Gtk.c_editable c) setting then mret self
  else
    write_container container (Gtk.mkContainer setting (Gtk.notify_editable c));;
    run_notify (Gtk.notify_editable c) self.

Fixpoint run_move_cursor (cbs : list Callback) (self : t)
    (step : Gtk.MovementStep) (count : Z) (extend_selection : bool) : M t :=
  match cbs with
  | [] => mret self
  | cb :: rest =>
      self ← match cb with
             | CbOnMoveCursor =>
                 r ← on_move_cursor self (view self) step count extend_selection;
                 mret r.1
             | _ => mret self
             end;
      run_move_cursor rest self step count extend_selection
  end.

(** The class handler of move-cursor, which moves the marks of the
    buffer, is a parameter. *)
Definition MoveCursor : Type :=
  Gtk.TextBuffer → Gtk.MovementStep → Z → bool → Gtk.TextBuffer.

(** move-cursor on the text view of the widget: the connected handlers
    first, the class handler last.  The signal has no return value, so
    what a handler returns is dropped. *)
Definition view_move_cursor (default : MoveCursor) (self : t)
    (step : Gtk.MovementStep) (count : Z) (extend_selection : bool) : M t :=
  self ← run_move_cursor (Gtk.move_cursor_handlers (view self)) self step count
           extend_selection;
  r ← lift (Gtk.view_buffer (view self));
  b ← read_buffer r;
  write_buffer r (default b step count extend_selection);;
  mret self.

(** What can happen to a widget once it is constructed. *)
Inductive Event :=
  | SetParent (parent : ref)
  | Unparent
  | ContainerSetEditable (container : ref) (setting : bool)
  | SetEditable (editable : bool)
  | GrabCursorAt (position : Z)
  | MoveCursorBy (step : Gtk.MovementStep) (count : Z) (extend_selection : bool).

Definition handle (default : MoveCursor) (self : t) (e : Event) : M t :=
  match e with
  | SetParent p => widget_set_parent self p
  | Unparent => widget_unparent self
  | ContainerSetEditable c b => container_set_editable self c b
  | SetEditable b => mret (set_editable self b)
  | GrabCursorAt position => grab_cursor self position
  | MoveCursorBy step count ext => view_move_cursor default self step count ext
  end.

Fixpoint run (default : MoveCursor) (self : t) (es : list Event) : M t :=
  match es with
  | [] => mret self
  | e :: rest => self ← handle default self e; run default self rest
  end.

(** A store in which no container knows the widget yet. *)
Definition unlinked (w : World) : Prop :=
  ∀ q c h, containers w !! q = Some c → (h, CbOnParentNotify) ∉ Gtk.notify_editable c.

End Toolkit.

(** ** The wrap width

    [set_textview_wrap_width] does its work in an idle callback.  The
    state below is the widget together with what that method touches:
    the size request of the widget and the idle callbacks that wait for
    the main loop, each with the width it was scheduled with. *)

Module Sizing.

Record t := mk {
  widget : InsertedObjectWidget.t;
  size_request : Z * Z;
  idle : list Z
}.

(** [get_preferred_width] of a box, the minimum and the natural width,
    is computed by the toolkit from the children of the box. *)
Definition PreferredWidth : Type := Gtk.Box → Z * Z.

(** The inner function [callback]: the new state and the value it
    returns to the main loop. *)
Definition callback (preferred : PreferredWidth) (self : t) (width : Z) : t * bool :=
  let '(minimum, natural) := preferred (InsertedObjectWidget.vbox (widget self)) in
  let width := if Z.eqb width (-1) then natural else Z.max width minimum in
  (mk (widget self) (width, (-1)%Z) (idle self), false).

(** [GObject.idle_add(callback, width)] *)
Definition set_textview_wrap_width (self : t) (width : Z) : t :=
  mk (widget self) (size_request self) (idle self ++ [width]).

(** The main loop runs the waiting callbacks in the order in which they
    were added and keeps those that return [True]. *)
Fixpoint run_callbacks (preferred : PreferredWidth) (pending : list Z) (self : t)
    : t :=
  match pending with
  | [] => self
  | width :: rest =>
      let '(self, again) := callback preferred self width in
      let self :=
        if again then mk (widget self) (size_request self) (idle self ++ [width])
        else self in
      run_callbacks preferred rest self
  end.

Definition main_iteration (preferred : PreferredWidth) (self : t) : t :=
  run_callbacks preferred (idle self) (mk (widget self) (size_request self) []).

End Sizing.

(** ** Notions used in the statements *)

(** A store with one buffer, for the examples below. *)
Definition store_with (r : ref) (b : Gtk.TextBuffer) : World :=
  mkWorld {[ r := b ]} ∅ ∅ 1%positive [].

Definition abc_at (offset : nat) : Gtk.TextBuffer :=
  Gtk.mkTextBuffer "abc" offset offset None.

(** A store with the model of an object: buffer 1 holds the text and
    refers to the attrib in dictionary 2. *)
Definition object_store (attrib : gmap string string) (data : string) : World :=
  mkWorld {[ 1%positive := Gtk.mkTextBuffer data (String.length data)
                             (String.length data) (Some 2%positive) ]}
    {[ 2%positive := attrib ]} ∅ 1%positive [].

(** A page view that is not editable, in a store with one buffer. *)
Definition page_store : World :=
  mkWorld {[ 1%positive := abc_at 0 ]} ∅
    {[ 5%positive := Gtk.mkContainer false [(1%positive, CbForeign 0)] ]}
    2%positive [].

(** A class handler for the example: one character to the left or to
    the right, inside the content. *)
Definition step_by_one : Toolkit.MoveCursor :=
  λ b _ count _,
    let target := Z.to_nat (Z.max 0 (Z.min (Z.of_nat (String.length (Gtk.text b)))
                                       (Z.of_nat (Gtk.insert_mark b) + count))) in
    Gtk.mkTextBuffer (Gtk.text b) target target (Gtk.object_attrib b).

(** No translation loaded: [_] returns its argument. *)
Definition untranslated (find : string → option (string * string * bool * string))
    : Env :=
  mkEnv (λ s, s) find.

(** A catalogue whose messages hold no conversion. *)
Definition broken_catalogue : Env :=
  mkEnv (λ _, "Kein Plugin") (λ _, None).

Definition one_plugin (activatable : bool) : string → option (string * string * bool * string) :=
  λ ty, if String.eqb ty "code" then
          Some ("sourceview", "Source View", activatable, "SourceViewObjectType")
        else None.

Definition packed (child : Gtk.Widget) : Gtk.Widget * Gtk.Packing :=
  (child, Gtk.mkPacking true true 0).

Definition text_window : Gtk.Widget :=
  Gtk.ScrolledTextView true Gtk.AUTOMATIC Gtk.NEVER Gtk.NONE.

(** Two states of a widget that differ in the parent, the parent's
    handler id and the flags of the view at most. *)
Definition same_widget (self self' : TextViewWidget.t) : Prop :=
  TextViewWidget.has_cursor self' = TextViewWidget.has_cursor self ∧
  InsertedObjectWidget.vbox (TextViewWidget.base self')
    = InsertedObjectWidget.vbox (TextViewWidget.base self) ∧
  InsertedObjectWidget.parent_set_handlers (TextViewWidget.base self')
    = InsertedObjectWidget.parent_set_handlers (TextViewWidget.base self) ∧
  TextViewWidget.buffer self' = TextViewWidget.buffer self ∧
  Gtk.view_buffer (TextViewWidget.view self')
    = Gtk.view_buffer (TextViewWidget.view self) ∧
  Gtk.move_cursor_handlers (TextViewWidget.view self')
    = Gtk.move_cursor_handlers (TextViewWidget.view self).

(** The widget and the store agree on the connection to the parent: the
    widget handles its own parent-set signal; when it has a parent, it
    is connected to that parent's [notify::editable] under the id it
    remembers; it is connected to no other container and under no other
    id. *)
Definition linked (w : World) (self : TextViewWidget.t) : Prop :=
  InsertedObjectWidget.parent_set_handlers (TextViewWidget.base self)
    = [CbOnParentSet] ∧
  (∀ p, TextViewWidget.get_parent self = Some p →
        ∃ c h, containers w !! p = Some c ∧
               TextViewWidget.parent_notify_h self = Some h ∧
               (h, CbOnParentNotify) ∈ Gtk.notify_editable c) ∧
  (∀ q c h, containers w !! q = Some c →
            (h, CbOnParentNotify) ∈ Gtk.notify_editable c →
            TextViewWidget.get_parent self = Some q ∧
            TextViewWidget.parent_notify_h self = Some h).

(** Whether a handler list holds the widget's [on_parent_notify]. *)
Definition notifies (cbs : list (positive * Callback)) : bool :=
  existsb (λ e, match e.2 with CbOnParentNotify => true | _ => false end) cbs.

(** The store after a connection to [notify::editable] of [p], and
    after the disconnection of [h] from [o]. *)
Definition connected (w : World) (p : ref) (c : Gtk.Container) : World :=
  mkWorld (buffers w) (dicts w)
    (<[p := Gtk.mkContainer (Gtk.c_editable c)
              (Gtk.notify_editable c ++ [(next_handler w, CbOnParentNotify)])]>
       (containers w))
    (Pos.succ (next_handler w)) (trace w).

Definition disconnected (w : World) (o : ref) (c : Gtk.Container) (h : positive)
    : World :=
  mkWorld (buffers w) (dicts w)
    (<[o := Gtk.mkContainer (Gtk.c_editable c)
              (filter (λ e, e.1 ≠ h) (Gtk.notify_editable c))]>
       (containers w))
    (next_handler w) (trace w).

(** What one run of [on_move_cursor] emits, by the caret of the buffer. *)
Definition released (b : Gtk.TextBuffer) (count : Z) (ext : bool) : list Effect :=
  if negb ext && Nat.eqb (Gtk.insert_mark b) 0 && Z.ltb count 0 then
    [Emit ReleaseCursor POSITION_BEGIN]
  else if negb ext && Nat.eqb (Gtk.insert_mark b) (String.length (Gtk.text b))
          && Z.ltb 0 count then
    [Emit ReleaseCursor POSITION_END]
  else [].

(** The offset that [do_grab_cursor] puts the caret at. *)
Definition boundary (b : Gtk.TextBuffer) (position : Z) : nat :=
  if Z.eqb position POSITION_BEGIN then 0%nat else String.length (Gtk.text b).

(** A class handler of move-cursor moves the marks and nothing else. *)
Definition moves_marks_only (default : Toolkit.MoveCursor) : Prop :=
  ∀ b step count ext,
    Gtk.text (default b step count ext) = Gtk.text b ∧
    Gtk.object_attrib (default b step count ext) = Gtk.object_attrib b.

(** The number of times the widget's [on_parent_notify] is connected to
    a container. *)
Definition is_notify (cb : Callback) : bool :=
  match cb with
  | CbOnParentNotify => true
  | _ => false
  end.

Definition connections (c : Gtk.Container) : nat :=
  length (filter (λ e, is_notify e.2 = true) (Gtk.notify_editable c)).

(** The parent is connected to the widget once. *)
Definition connected_once (w : World) (self : TextViewWidget.t) : Prop :=
  ∀ p c, TextViewWidget.get_parent self = Some p →
         containers w !! p = Some c → connections c = 1%nat.

(** The container that an event names is in the store. *)
Definition known (w : World) (e : Toolkit.Event) : Prop :=
  match e with
  | Toolkit.SetParent p => is_Some (containers w !! p)
  | Toolkit.ContainerSetEditable q _ => is_Some (containers w !! q)
  | _ => True
  end.

(** Two stores with the same dictionaries and, in every buffer of the
    first, the same text and the same attrib. *)
Definition same_content (w w' : World) : Prop :=
  dicts w' = dicts w ∧
  ∀ r b, buffers w !! r = Some b →
         ∃ b', buffers w' !! r = Some b' ∧
               Gtk.text b' = Gtk.text b ∧
               Gtk.object_attrib b' = Gtk.object_attrib b.

(** The events other than a direct call of [set_editable]. *)
Definition from_toolkit (e : Toolkit.Event) : bool :=
  match e with
  | Toolkit.SetEditable _ => false
  | _ => true
  end.

(** The flags of the view are those of the parent, when there is one. *)
Definition synced (w : World) (self : TextViewWidget.t) : Prop :=
  ∀ p, TextViewWidget.get_parent self = Some p →
       ∃ c, containers w !! p = Some c ∧
            Gtk.editable (TextViewWidget.view self) = Gtk.c_editable c ∧
            Gtk.cursor_visible (TextViewWidget.view self) = Gtk.c_editable c.

(** * Properties *)

(** Unfolding of the store operations. *)
Ltac unfold_store :=
  unfold mbind, mret, M_bind, M_ret, log, read_buffer, write_buffer,
    alloc_buffer, read_dict, write_dict, alloc_dict, read_container,
    write_container, lift in *.

Lemma bind_run {A B} (m : M A) (f : A → M B) (w w1 : World) (a : A) :
  m w = Some (a, w1) → (m ≫= f) w = f a w1.
Proof. intros H. unfold mbind, M_bind. by rewrite H. Qed.

Lemma bind_inv {A B} (m : M A) (f : A → M B) (w : World) (res : B * World) :
  (m ≫= f) w = Some res → ∃ a w1, m w = Some (a, w1) ∧ f a w1 = Some res.
Proof.
  unfold mbind, M_bind. destruct (m w) as [[a w1]|]; [|done]. eauto.
Qed.

(** ** The move-cursor handler *)

Section MoveCursor.

Import TextViewWidget.

Variables (w : World) (self : t) (view : Gtk.TextView).
Variables (r : ref) (b : Gtk.TextBuffer).
Hypothesis view_has_buffer : Gtk.view_buffer view = Some r.
Hypothesis buffer_in_store : buffers w !! r = Some b.

(** The handler as a function of the three tests it makes. *)
Lemma on_move_cursor_eq step count ext :
  on_move_cursor self view step count ext w =
    let at_start := Nat.eqb (Gtk.insert_mark b) 0 in
    let at_end := Nat.eqb (Gtk.insert_mark b) (String.length (Gtk.text b)) in
    if negb ext && at_start && Z.ltb count 0 then
      Some ((self, Py.PyNone),
            mkWorld (buffers w) (dicts w) (containers w) (next_handler w)
              (trace w ++ [Emit ReleaseCursor POSITION_BEGIN]))
    else if negb ext && at_end && Z.ltb 0 count then
      Some ((self, Py.PyNone),
            mkWorld (buffers w) (dicts w) (containers w) (next_handler w)
              (trace w ++ [Emit ReleaseCursor POSITION_END]))
    else Some ((self, Py.PyNone), w).
Proof using view_has_buffer buffer_in_store.
  unfold on_move_cursor, release_cursor, InsertedObjectWidget.release_cursor.
  unfold_store. rewrite view_has_buffer, buffer_in_store. cbn.
  unfold Gtk.is_start, Gtk.is_end. cbn.
  destruct self as [bs bf vw h]; cbn.
  destruct ext, (Nat.eqb (Gtk.insert_mark b) 0),
    (Nat.eqb (Gtk.insert_mark b) (String.length (Gtk.text b))),
    (Z.ltb count 0), (Z.ltb 0 count); reflexivity.
Qed.

End MoveCursor.

(** C1: the handler emits release-cursor exactly when no selection is
    being extended and the caret is at the start with [count < 0], where
    the position emitted is [POSITION_BEGIN], or at the end with
    [count > 0], where it is [POSITION_END]; nothing else is emitted. *)
Theorem on_move_cursor_release_iff
    (w : World) (self : TextViewWidget.t) (view : Gtk.TextView)
    (step : Gtk.MovementStep) (count : Z) (ext : bool)
    (r : ref) (b : Gtk.TextBuffer) :
  Gtk.view_buffer view = Some r →
  buffers w !! r = Some b →
  let at_start := Gtk.insert_mark b = 0%nat in
  let at_end := Gtk.insert_mark b = String.length (Gtk.text b) in
  ∃ self' res w' out,
    TextViewWidget.on_move_cursor self view step count ext w = Some ((self', res), w') ∧
    trace w' = trace w ++ out ∧
    ((∃ position, Emit ReleaseCursor position ∈ out) ↔
       ext = false ∧ (at_start ∧ (count < 0)%Z ∨ at_end ∧ (count > 0)%Z)) ∧
    (ext = false → at_start → (count < 0)%Z →
       out = [Emit ReleaseCursor POSITION_BEGIN]) ∧
    (ext = false → at_end → (count > 0)%Z →
       out = [Emit ReleaseCursor POSITION_END]) ∧
    (¬ (ext = false ∧ (at_start ∧ (count < 0)%Z ∨ at_end ∧ (count > 0)%Z)) →
       out = []).
Proof.
  intros Hv Hb at_start at_end.
  rewrite (on_move_cursor_eq w self view r b Hv Hb). cbn zeta.
  subst at_start at_end.
  destruct (Nat.eqb_spec (Gtk.insert_mark b) 0) as [Hs|Hs];
    destruct (Nat.eqb_spec (Gtk.insert_mark b) (String.length (Gtk.text b))) as [He|He];
    destruct (Z.ltb_spec count 0) as [Hn|Hn];
    destruct (Z.ltb_spec 0 count) as [Hp|Hp];
    destruct ext; cbn;
    try lia;
    (eexists _, _, _, _; split; [reflexivity|];
     split; [cbn; first [rewrite app_nil_r; reflexivity | reflexivity] | ]);
    (split; [split; [intros [p Hin]; first [by apply elem_of_nil in Hin | intuition lia]
                    | intros [? ?]; first [discriminate | intuition lia | eexists; apply list_elem_of_here]]
            | ]);
    intuition first [discriminate | lia | congruence | idtac].
Qed.

Lemma on_move_cursor_release_iff_witness :
  ∃ self' res w',
    TextViewWidget.on_move_cursor (TextViewWidget.__init__ 1%positive)
      (TextViewWidget.view (TextViewWidget.__init__ 1%positive)) Gtk.LOGICAL_POSITIONS (-1)%Z false
      (store_with 1%positive (abc_at 0)) = Some ((self', res), w') ∧
    trace w' = [Emit ReleaseCursor POSITION_BEGIN].
Proof.
  destruct (on_move_cursor_release_iff (store_with 1%positive (abc_at 0))
              (TextViewWidget.__init__ 1%positive)
              (TextViewWidget.view (TextViewWidget.__init__ 1%positive))
              Gtk.LOGICAL_POSITIONS (-1)%Z false 1%positive (abc_at 0)
              eq_refl eq_refl)
    as (self' & res & w' & out & Hrun & Htrace & _ & Hbegin & _).
  exists self', res, w'. split; [exact Hrun|].
  rewrite Htrace, Hbegin; [reflexivity|reflexivity|reflexivity|reflexivity].
Defined.

(** C6: while a selection is being extended the handler emits nothing,
    wherever the caret is and whichever way it moves; it leaves the
    store and the widget as they are. *)
Theorem on_move_cursor_extend_selection_silent
    (w : World) (self : TextViewWidget.t) (view : Gtk.TextView)
    (step : Gtk.MovementStep) (count : Z) (r : ref) (b : Gtk.TextBuffer) :
  Gtk.view_buffer view = Some r →
  buffers w !! r = Some b →
  TextViewWidget.on_move_cursor self view step count true w
    = Some ((self, Py.PyNone), w).
Proof.
  intros Hv Hb. rewrite (on_move_cursor_eq w self view r b Hv Hb). reflexivity.
Qed.

Lemma on_move_cursor_extend_selection_silent_witness :
  trace (store_with 1%positive (abc_at 0)) = [] ∧
  TextViewWidget.on_move_cursor (TextViewWidget.__init__ 1%positive)
    (TextViewWidget.view (TextViewWidget.__init__ 1%positive)) Gtk.LOGICAL_POSITIONS (-1)%Z true
    (store_with 1%positive (abc_at 0))
  = Some ((TextViewWidget.__init__ 1%positive, Py.PyNone), store_with 1%positive (abc_at 0)).
Proof.
  split; [reflexivity|].
  apply (on_move_cursor_extend_selection_silent (store_with 1%positive (abc_at 0))
           (TextViewWidget.__init__ 1%positive) _ Gtk.LOGICAL_POSITIONS (-1)%Z 1%positive (abc_at 0));
    reflexivity.
Defined.

(** C9: on an empty buffer with no selection being extended, a backward
    movement releases the cursor with [POSITION_BEGIN], a forward one
    with [POSITION_END], and a movement by zero emits nothing. *)
Theorem on_move_cursor_empty_buffer
    (w : World) (self : TextViewWidget.t) (view : Gtk.TextView)
    (step : Gtk.MovementStep) (count : Z) (r : ref) (b : Gtk.TextBuffer) :
  Gtk.view_buffer view = Some r →
  buffers w !! r = Some b →
  Gtk.well_formed b →
  Gtk.text b = "" →
  ∃ w',
    TextViewWidget.on_move_cursor self view step count false w
      = Some ((self, Py.PyNone), w') ∧
    trace w' = trace w ++
      match count with
      | Zneg _ => [Emit ReleaseCursor POSITION_BEGIN]
      | Zpos _ => [Emit ReleaseCursor POSITION_END]
      | Z0 => []
      end.
Proof.
  intros Hv Hb [Hins _] Htext.
  rewrite (on_move_cursor_eq w self view r b Hv Hb). cbn zeta.
  rewrite Htext in *. cbn in Hins.
  assert (Gtk.insert_mark b = 0%nat) as -> by lia. cbn.
  destruct count; cbn; eexists; (split; [reflexivity|]); cbn;
    by rewrite ?app_nil_r.
Qed.

Lemma on_move_cursor_empty_buffer_witness :
  ∃ w',
    TextViewWidget.on_move_cursor (TextViewWidget.__init__ 1%positive)
      (TextViewWidget.view (TextViewWidget.__init__ 1%positive)) Gtk.LOGICAL_POSITIONS (-1)%Z false
      (store_with 1%positive Gtk.new_buffer)
      = Some ((TextViewWidget.__init__ 1%positive, Py.PyNone), w') ∧
    trace w' = [Emit ReleaseCursor POSITION_BEGIN].
Proof.
  apply (on_move_cursor_empty_buffer (store_with 1%positive Gtk.new_buffer)
           (TextViewWidget.__init__ 1%positive) _ Gtk.LOGICAL_POSITIONS (-1)%Z 1%positive
           Gtk.new_buffer);
    [reflexivity | reflexivity | split; cbn; lia | reflexivity].
Defined.

(** ** The handler does not stop the movement *)

(** One run of the handler changes the trace at most. *)
Lemma on_move_cursor_frame
    (w : World) (self : TextViewWidget.t) (view : Gtk.TextView)
    (step : Gtk.MovementStep) (count : Z) (ext : bool)
    (r : ref) (b : Gtk.TextBuffer) :
  Gtk.view_buffer view = Some r →
  buffers w !! r = Some b →
  ∃ w', TextViewWidget.on_move_cursor self view step count ext w
          = Some ((self, Py.PyNone), w') ∧
        buffers w' = buffers w.
Proof.
  intros Hv Hb. rewrite (on_move_cursor_eq w self view r b Hv Hb). cbn zeta.
  repeat case_match; eexists; split; reflexivity.
Qed.

Lemma run_move_cursor_frame
    (cbs : list Callback) (w : World) (self : TextViewWidget.t)
    (step : Gtk.MovementStep) (count : Z) (ext : bool)
    (r : ref) (b : Gtk.TextBuffer) :
  Gtk.view_buffer (TextViewWidget.view self) = Some r →
  buffers w !! r = Some b →
  ∃ w', Toolkit.run_move_cursor cbs self step count ext w = Some (self, w') ∧
        buffers w' = buffers w.
Proof.
  intros Hv. revert w. induction cbs as [|cb cbs IH]; intros w Hb.
  - exists w. split; reflexivity.
  - cbn [Toolkit.run_move_cursor].
    assert (∃ w1, match cb with
                  | CbOnMoveCursor =>
                      r0 ← TextViewWidget.on_move_cursor self
                             (TextViewWidget.view self) step count ext;
                      mret r0.1
                  | _ => mret self
                  end w = Some (self, w1) ∧ buffers w1 = buffers w)
      as (w1 & Hcb & Hw1).
    { destruct cb; try (exists w; split; reflexivity).
      destruct (on_move_cursor_frame w self _ step count ext r b Hv Hb)
        as (w1 & Hrun & Hw1).
      exists w1. split; [|exact Hw1].
      by rewrite (bind_run _ _ _ _ _ Hrun). }
    rewrite (bind_run _ _ _ _ _ Hcb).
    destruct (IH w1) as (w' & Hrun & Hw'); [by rewrite Hw1|].
    exists w'. split; [exact Hrun | congruence].
Qed.

(** C7: the handler returns [None] on every path, and the movement
    command is always carried out by the class handler afterwards:
    after move-cursor the buffer is what the class handler makes of it. *)
Theorem on_move_cursor_returns_None
    (default : Toolkit.MoveCursor) (w : World) (self : TextViewWidget.t)
    (step : Gtk.MovementStep) (count : Z) (ext : bool)
    (r : ref) (b : Gtk.TextBuffer) :
  Gtk.view_buffer (TextViewWidget.view self) = Some r →
  buffers w !! r = Some b →
  (∃ self' w',
     TextViewWidget.on_move_cursor self (TextViewWidget.view self) step count ext w
       = Some ((self', Py.PyNone), w')) ∧
  (∃ self' w',
     Toolkit.view_move_cursor default self step count ext w = Some (self', w') ∧
     buffers w' !! r = Some (default b step count ext)).
Proof.
  intros Hv Hb. split.
  - destruct (on_move_cursor_frame w self _ step count ext r b Hv Hb) as (w' & H & _).
    eauto.
  - destruct (run_move_cursor_frame
                (Gtk.move_cursor_handlers (TextViewWidget.view self))
                w self step count ext r b Hv Hb) as (w1 & Hrun & Hw1).
    unfold Toolkit.view_move_cursor. rewrite (bind_run _ _ _ _ _ Hrun).
    unfold_store. rewrite Hv, Hw1, Hb. cbn.
    eexists _, _. split; [reflexivity|]. cbn. apply lookup_insert_eq.
Qed.

Lemma on_move_cursor_returns_None_witness :
  ∃ self' w',
    Toolkit.view_move_cursor step_by_one (TextViewWidget.__init__ 1%positive)
      Gtk.LOGICAL_POSITIONS 1%Z false (store_with 1%positive (abc_at 3)) = Some (self', w') ∧
    buffers w' !! 1%positive = Some (abc_at 3).
Proof.
  apply (on_move_cursor_returns_None step_by_one (store_with 1%positive (abc_at 3))
           (TextViewWidget.__init__ 1%positive) Gtk.LOGICAL_POSITIONS 1%Z false
           1%positive (abc_at 3)); reflexivity.
Defined.

(** ** Taking the cursor *)

(** C2: [do_grab_cursor] puts both marks of the widget's buffer at the
    start of the content for [POSITION_BEGIN] and at its end for
    [POSITION_END], and after that gives focus to the view. *)
Theorem do_grab_cursor_places_caret
    (w : World) (self : TextViewWidget.t) (position : Z) (b : Gtk.TextBuffer) :
  buffers w !! TextViewWidget.buffer self = Some b →
  position = POSITION_BEGIN ∨ position = POSITION_END →
  let boundary :=
    if decide (position = POSITION_BEGIN) then 0%nat
    else String.length (Gtk.text b) in
  ∃ self' w' b',
    TextViewWidget.do_grab_cursor self position w = Some (self', w') ∧
    buffers w' !! TextViewWidget.buffer self = Some b' ∧
    Gtk.text b' = Gtk.text b ∧
    Gtk.insert_mark b' = boundary ∧
    Gtk.selection_bound b' = boundary ∧
    Gtk.has_focus (TextViewWidget.view self') = true ∧
    trace w' = trace w ++ [PlaceCursor (TextViewWidget.buffer self) boundary; GrabFocus].
Proof.
  intros Hb Hpos boundary. subst boundary.
  unfold TextViewWidget.do_grab_cursor, TextViewWidget.buffer_place_cursor,
    TextViewWidget.view_grab_focus.
  unfold_store. rewrite Hb. cbn.
  destruct Hpos as [-> | ->]; cbn; rewrite Hb; cbn;
    eexists _, _, _; (split; [reflexivity|]); cbn;
    rewrite lookup_insert_eq, <- app_assoc; cbn; repeat split.
Qed.

Lemma do_grab_cursor_places_caret_witness :
  ∃ self' w',
    TextViewWidget.do_grab_cursor (TextViewWidget.__init__ 1%positive) POSITION_END
      (store_with 1%positive (abc_at 0)) = Some (self', w') ∧
    buffers w' !! 1%positive = Some (abc_at 3) ∧
    Gtk.has_focus (TextViewWidget.view self') = true.
Proof.
  destruct (do_grab_cursor_places_caret (store_with 1%positive (abc_at 0))
              (TextViewWidget.__init__ 1%positive) POSITION_END (abc_at 0)
              eq_refl (or_intror eq_refl))
    as (self' & w' & b' & Hrun & Hb' & _ & _ & _ & Hfocus & _).
  exists self', w'. split; [exact Hrun|]. split; [|exact Hfocus].
  vm_compute in Hrun. injection Hrun as <- <-. reflexivity.
Defined.

(** A position that is neither constant is treated like [POSITION_END]. *)
Lemma do_grab_cursor_other_position
    (w : World) (self : TextViewWidget.t) (position : Z) :
  position ≠ POSITION_BEGIN →
  TextViewWidget.do_grab_cursor self position w
    = TextViewWidget.do_grab_cursor self POSITION_END w.
Proof.
  intros Hne. unfold TextViewWidget.do_grab_cursor.
  destruct (Z.eqb_spec position POSITION_BEGIN); [done|]. reflexivity.
Qed.

(** ** What the handlers leave alone *)

Lemma same_widget_refl self : same_widget self self.
Proof. by repeat split. Qed.

Lemma same_widget_trans s1 s2 s3 :
  same_widget s1 s2 → same_widget s2 s3 → same_widget s1 s3.
Proof. unfold same_widget. intuition congruence. Qed.

Ltac run_cases :=
  unfold_store;
  repeat (simplify_eq/=; try case_match);
  simplify_eq/=.

Lemma on_parent_set_same self old w self' w' :
  TextViewWidget.on_parent_set self old w = Some (self', w') →
  same_widget self self' ∧
  TextViewWidget.get_parent self' = TextViewWidget.get_parent self.
Proof.
  unfold TextViewWidget.on_parent_set, disconnect, connect_notify,
    TextViewWidget.get_parent, InsertedObjectWidget.get_parent.
  destruct self as [[] ? [] ?]. intros H. run_cases; by repeat split.
Qed.

Lemma on_parent_notify_same self w self' w' :
  TextViewWidget.on_parent_notify self w = Some (self', w') →
  same_widget self self' ∧
  TextViewWidget.get_parent self' = TextViewWidget.get_parent self ∧
  TextViewWidget.parent_notify_h self' = TextViewWidget.parent_notify_h self ∧
  w' = w.
Proof.
  unfold TextViewWidget.on_parent_notify, TextViewWidget.get_parent,
    InsertedObjectWidget.get_parent.
  destruct self as [[] ? [] ?]. intros H. run_cases; by repeat split.
Qed.

Lemma on_move_cursor_same self view step count ext w res w' :
  TextViewWidget.on_move_cursor self view step count ext w = Some (res, w') →
  res = (self, Py.PyNone) ∧ containers w' = containers w ∧
  next_handler w' = next_handler w.
Proof.
  unfold TextViewWidget.on_move_cursor, TextViewWidget.release_cursor,
    InsertedObjectWidget.release_cursor.
  destruct self as [[] ? [] ?]. intros H. run_cases; by repeat split.
Qed.

Lemma grab_cursor_same self position w self' w' :
  TextViewWidget.grab_cursor self position w = Some (self', w') →
  same_widget self self' ∧
  TextViewWidget.get_parent self' = TextViewWidget.get_parent self ∧
  TextViewWidget.parent_notify_h self' = TextViewWidget.parent_notify_h self ∧
  containers w' = containers w ∧ next_handler w' = next_handler w.
Proof.
  unfold TextViewWidget.grab_cursor, InsertedObjectWidget.grab_cursor,
    TextViewWidget.do_grab_cursor, TextViewWidget.buffer_place_cursor,
    TextViewWidget.view_grab_focus.
  destruct self as [[] ? [] ?]. intros H. run_cases; by repeat split.
Qed.

Lemma run_parent_set_same cbs self old w self' w' :
  Toolkit.run_parent_set cbs self old w = Some (self', w') →
  same_widget self self' ∧
  TextViewWidget.get_parent self' = TextViewWidget.get_parent self.
Proof.
  revert self w. induction cbs as [|cb cbs IH]; intros self w H.
  - cbn in H. unfold_store. simplify_eq. split; [apply same_widget_refl | done].
  - cbn [Toolkit.run_parent_set] in H.
    apply bind_inv in H as (self1 & w1 & Hcb & H).
    apply IH in H as [Hs Hp].
    assert (same_widget self self1 ∧
            TextViewWidget.get_parent self1 = TextViewWidget.get_parent self)
      as [Hs1 Hp1].
    { destruct cb; try (unfold_store; simplify_eq;
                        split; [apply same_widget_refl | done]).
      by apply on_parent_set_same in Hcb. }
    split; [by eapply same_widget_trans | congruence].
Qed.

Lemma run_notify_same cbs self w self' w' :
  Toolkit.run_notify cbs self w = Some (self', w') →
  same_widget self self' ∧
  TextViewWidget.get_parent self' = TextViewWidget.get_parent self ∧
  TextViewWidget.parent_notify_h self' = TextViewWidget.parent_notify_h self ∧
  w' = w.
Proof.
  revert self w. induction cbs as [|[h cb] cbs IH]; intros self w H.
  - cbn in H. unfold_store. simplify_eq. by split; [apply same_widget_refl|].
  - cbn [Toolkit.run_notify] in H.
    apply bind_inv in H as (self1 & w1 & Hcb & H).
    apply IH in H as (Hs & Hp & Hh & ->).
    assert (same_widget self self1 ∧
            TextViewWidget.get_parent self1 = TextViewWidget.get_parent self ∧
            TextViewWidget.parent_notify_h self1 = TextViewWidget.parent_notify_h self ∧
            w1 = w) as (Hs1 & Hp1 & Hh1 & ->).
    { destruct cb; try (unfold_store; simplify_eq;
                        by split; [apply same_widget_refl|]).
      by apply on_parent_notify_same in Hcb. }
    split; [by eapply same_widget_trans|]. repeat split; congruence.
Qed.

Lemma run_move_cursor_same cbs self step count ext w self' w' :
  Toolkit.run_move_cursor cbs self step count ext w = Some (self', w') →
  self' = self ∧ containers w' = containers w ∧ next_handler w' = next_handler w.
Proof.
  revert w. induction cbs as [|cb cbs IH]; intros w H.
  - cbn in H. unfold_store. by simplify_eq.
  - cbn [Toolkit.run_move_cursor] in H.
    apply bind_inv in H as (self1 & w1 & Hcb & H).
    assert (self1 = self ∧ containers w1 = containers w ∧
            next_handler w1 = next_handler w) as (-> & Hc & Hn).
    { destruct cb; try (unfold_store; by simplify_eq).
      apply bind_inv in Hcb as (res & w2 & Hrun & Hcb).
      apply on_move_cursor_same in Hrun as (-> & ? & ?).
      unfold_store. by simplify_eq/=. }
    apply IH in H as (-> & ? & ?). repeat split; congruence.
Qed.

(** Everything that can happen to a constructed widget leaves its
    cursor flag, its children and its connections as they are. *)
Lemma handle_same default self e w self' w' :
  Toolkit.handle default self e w = Some (self', w') →
  same_widget self self'.
Proof.
  destruct e; cbn [Toolkit.handle]; intros H.
  - unfold Toolkit.widget_set_parent in H.
    destruct (TextViewWidget.get_parent self);
      [unfold_store; simplify_eq; apply same_widget_refl|].
    apply bind_inv in H as (c & w1 & _ & H).
    unfold Toolkit.parent_changed in H.
    apply run_parent_set_same in H as [H _].
    eapply same_widget_trans; [|exact H]. by destruct self as [[] ? [] ?].
  - unfold Toolkit.widget_unparent in H.
    destruct (TextViewWidget.get_parent self);
      [|unfold_store; simplify_eq; apply same_widget_refl].
    unfold Toolkit.parent_changed in H.
    apply run_parent_set_same in H as [H _].
    eapply same_widget_trans; [|exact H]. by destruct self as [[] ? [] ?].
  - unfold Toolkit.container_set_editable in H.
    apply bind_inv in H as (c & w1 & _ & H).
    destruct (Bool.eqb _ _); [unfold_store; simplify_eq; apply same_widget_refl|].
    apply bind_inv in H as (? & w2 & _ & H).
    by apply run_notify_same in H as (H & _).
  - unfold_store. simplify_eq. by destruct self as [[] ? [] ?].
  - by apply grab_cursor_same in H as (H & _).
  - unfold Toolkit.view_move_cursor in H.
    apply bind_inv in H as (self1 & w1 & Hrun & H).
    apply run_move_cursor_same in Hrun as (-> & _).
    run_cases. apply same_widget_refl.
Qed.

Lemma run_same default es self w self' w' :
  Toolkit.run default self es w = Some (self', w') →
  same_widget self self'.
Proof.
  revert self w. induction es as [|e es IH]; intros self w H.
  - cbn in H. unfold_store. simplify_eq. apply same_widget_refl.
  - cbn [Toolkit.run] in H.
    apply bind_inv in H as (self1 & w1 & He & H).
    eapply same_widget_trans; [by eapply handle_same | by eapply IH].
Qed.

(** ** The cursor flag *)




(** ** The [%] operator on the module's templates *)

Lemma percent_go_plain (s arg : string) (used : bool) :
  Py.plain s = true → Py.percent_go s arg used = Some (s, used).
Proof.
  induction s as [|c s IH]; [done|]. cbn.
  destruct (Ascii.eqb c "%"); [done|]. cbn. intros H.
  by rewrite IH.
Qed.

Lemma append_nil (s : string) : "" +:+ s = s.
Proof. reflexivity. Qed.

Lemma append_cons (c : ascii) (s t : string) : String c s +:+ t = String c (s +:+ t).
Proof. reflexivity. Qed.

(** Characters before the first conversion are copied. *)
Lemma percent_go_prefix (pre rest arg : string) (used : bool) :
  Py.plain pre = true →
  Py.percent_go (pre +:+ rest) arg used
    = prod_map (String.append pre) id <$> Py.percent_go rest arg used.
Proof.
  intros Hpre. induction pre as [|c pre IH].
  - rewrite append_nil. by destruct (Py.percent_go rest arg used) as [[? ?]|].
  - rewrite append_cons. cbn in *. destruct (Ascii.eqb c "%"); [done|].
    rewrite (IH Hpre). by destruct (Py.percent_go rest arg used) as [[? ?]|].
Qed.

Lemma percent_go_one (pre post arg : string) :
  Py.plain pre = true → Py.plain post = true →
  Py.percent_go (pre +:+ "%s" +:+ post) arg false
    = Some (pre +:+ arg +:+ post, true).
Proof.
  intros Hpre Hpost. rewrite (percent_go_prefix _ _ _ _ Hpre).
  rewrite append_cons, append_cons, append_nil. cbn.
  by rewrite (percent_go_plain post arg true Hpost).
Qed.

(** A template with one [%s] and no other [%]: the argument takes the
    place of the [%s]. *)
Lemma percent_one (pre post arg : string) :
  Py.plain pre = true → Py.plain post = true →
  Py.percent (pre +:+ "%s" +:+ post) arg = Some (pre +:+ arg +:+ post).
Proof.
  intros Hpre Hpost. unfold Py.percent. by rewrite percent_go_one.
Qed.

(** ** The fallback widget *)

(** C4: when the object has no type, or no plugin is found for its type,
    the widget holds a label with the message "No plugin available to
    display objects of type: %s", filled in with the type, in the first
    place of its box, and after it the text view on the object's
    buffer, whose content is the raw text of the object. *)
Theorem unknown_widget_without_plugin
    (env : Env) (w : World) (buffer attrib : ref) (b : Gtk.TextBuffer)
    (d : gmap string string) (pre post : string) :
  buffers w !! buffer = Some b →
  Gtk.object_attrib b = Some attrib →
  dicts w !! attrib = Some d →
  match d !! "type" with
  | Some ty => ty = "" ∨ find_plugin env ty = None
  | None => True
  end →
  gettext env "No plugin available to display objects of type: %s"
    = pre +:+ "%s" +:+ post →
  Py.plain pre = true → Py.plain post = true →
  ∃ self,
    UnkownObjectWidget.__init__ env buffer w = Some (self, w) ∧
    InsertedObjectWidget.vbox (TextViewWidget.base self)
      = [packed (Gtk.Label (pre +:+ Py.str (d !! "type") +:+ post));
         packed text_window] ∧
    Gtk.view_buffer (TextViewWidget.view self) = Some buffer ∧
    TextViewWidget.buffer self = buffer.
Proof.
  intros Hb Hattr Hd Hnone Hmsg Hpre Hpost.
  unfold UnkownObjectWidget.__init__. unfold_store.
  rewrite Hb, Hattr, Hd, Hmsg. rewrite (percent_one pre post _ Hpre Hpost).
  destruct (d !! "type") as [ty|] eqn:Hty.
  - assert ((if Py.truthy ty then find_plugin env ty else None) = None) as ->.
    { destruct Hnone as [-> | ->]; [done | by destruct (Py.truthy ty)]. }
    eexists. split; [reflexivity|]. by repeat split.
  - eexists. split; [reflexivity|]. by repeat split.
Qed.

Lemma unknown_widget_without_plugin_witness :
  ∃ self,
    UnkownObjectWidget.__init__ (untranslated (λ _, None)) 1%positive
      (object_store {[ "type" := "code" ]} "x = 1")
      = Some (self, object_store {[ "type" := "code" ]} "x = 1") ∧
    InsertedObjectWidget.vbox (TextViewWidget.base self)
      = [packed (Gtk.Label "No plugin available to display objects of type: code");
         packed text_window] ∧
    Gtk.view_buffer (TextViewWidget.view self) = Some 1%positive.
Proof.
  destruct (unknown_widget_without_plugin (untranslated (λ _, None))
              (object_store {[ "type" := "code" ]} "x = 1") 1%positive 2%positive
              (Gtk.mkTextBuffer "x = 1" 5 5 (Some 2%positive)) {[ "type" := "code" ]}
              "No plugin available to display objects of type: " "")
    as (self & Hrun & Hbox & Hview & _);
    [reflexivity | reflexivity | reflexivity | vm_compute; by right
    | reflexivity | reflexivity | reflexivity |].
  exists self. split; [exact Hrun|]. split; [exact Hbox | exact Hview].
Defined.

(** An attrib without a type is reported as type [None]. *)
Example unknown_widget_without_type :
  (InsertedObjectWidget.vbox ∘ TextViewWidget.base ∘ fst) <$>
    UnkownObjectWidget.__init__ (untranslated (λ _, None)) 1%positive
      (object_store ∅ "x = 1")
  = Some [packed (Gtk.Label "No plugin available to display objects of type: None");
          packed text_window].
Proof. reflexivity. Qed.

(** C5: when a plugin is found for the type of the object, the first
    child of the widget's box is a bar whose only child is a label that
    names the plugin, "Plugin %s is required to display this object.";
    the bar holds no button, whether the plugin can be activated or
    not.  The text view follows the bar. *)
Theorem unknown_widget_with_plugin
    (env : Env) (w : World) (buffer attrib : ref) (b : Gtk.TextBuffer)
    (d : gmap string string) (ty key name klass : string) (activatable : bool)
    (pre post : string) :
  buffers w !! buffer = Some b →
  Gtk.object_attrib b = Some attrib →
  dicts w !! attrib = Some d →
  d !! "type" = Some ty →
  ty ≠ "" →
  find_plugin env ty = Some (key, name, activatable, klass) →
  gettext env "Plugin %s is required to display this object."
    = pre +:+ "%s" +:+ post →
  Py.plain pre = true → Py.plain post = true →
  ∃ self,
    UnkownObjectWidget.__init__ env buffer w = Some (self, w) ∧
    InsertedObjectWidget.vbox (TextViewWidget.base self)
      = [packed (Gtk.HBox false 5 [packed (Gtk.Label (pre +:+ name +:+ post))]);
         packed text_window] ∧
    Gtk.view_buffer (TextViewWidget.view self) = Some buffer.
Proof.
  intros Hb Hattr Hd Hty Hne Hfind Hmsg Hpre Hpost.
  unfold UnkownObjectWidget.__init__, UnkownObjectWidget._add_load_plugin_bar.
  unfold_store. rewrite Hb, Hattr, Hd, Hty.
  assert (Py.truthy ty = true) as ->.
  { unfold Py.truthy. by destruct (String.eqb_spec ty ""). }
  rewrite Hfind, Hmsg, (percent_one pre post _ Hpre Hpost).
  eexists. split; [reflexivity|]. by split.
Qed.

Lemma unknown_widget_with_plugin_witness :
  ∃ self,
    UnkownObjectWidget.__init__ (untranslated (one_plugin true)) 1%positive
      (object_store {[ "type" := "code" ]} "x = 1")
      = Some (self, object_store {[ "type" := "code" ]} "x = 1") ∧
    InsertedObjectWidget.vbox (TextViewWidget.base self)
      = [packed (Gtk.HBox false 5
                   [packed (Gtk.Label
                              "Plugin Source View is required to display this object.")]);
         packed text_window].
Proof.
  destruct (unknown_widget_with_plugin (untranslated (one_plugin true))
              (object_store {[ "type" := "code" ]} "x = 1") 1%positive 2%positive
              (Gtk.mkTextBuffer "x = 1" 5 5 (Some 2%positive)) {[ "type" := "code" ]}
              "code" "sourceview" "Source View" "SourceViewObjectType" true
              "Plugin " " is required to display this object.")
    as (self & Hrun & Hbox & _);
    [reflexivity | reflexivity | reflexivity | reflexivity | discriminate
    | reflexivity | reflexivity | reflexivity | reflexivity |].
  exists self. split; [exact Hrun | exact Hbox].
Defined.

(** ** The model of an unknown object *)

Lemma substring_all (s : string) : String.substring 0 (String.length s) s = s.
Proof. induction s as [|c s IH]; cbn; [done | by rewrite IH]. Qed.

(** Reading a buffer back right after [set_text]. *)
Lemma get_text_set_text (b : Gtk.TextBuffer) (data : string) :
  let '(start, end_) := Gtk.get_bounds (Gtk.set_text b data) in
  Gtk.get_text start end_ = data.
Proof.
  cbn. unfold Gtk.get_text. cbn. rewrite Nat.sub_0_r. apply substring_all.
Qed.

(** C8: a model made from an attrib and a text gives back the same text
    and a dictionary equal to the attrib it stores; the dictionary
    returned is a new object, so that setting a key in it changes
    neither the attrib that the buffer stores nor the buffer. *)
Theorem model_round_trip
    (w : World) (attrib : ref) (d : gmap string string) (data : string) :
  dicts w !! attrib = Some d →
  ∃ buffer copy w1 w2 b,
    UnknownInsertedObject.model_from_data attrib data w = Some (buffer, w1) ∧
    UnknownInsertedObject.data_from_model buffer w1 = Some ((copy, data), w2) ∧
    buffers w2 !! buffer = Some b ∧
    Gtk.object_attrib b = Some attrib ∧
    dicts w2 !! attrib = Some d ∧
    dicts w2 !! copy = Some d ∧
    copy ≠ attrib ∧
    ∀ k v, ∃ w3,
      dict_setitem copy k v w2 = Some (tt, w3) ∧
      dicts w3 !! copy = Some (<[k := v]> d) ∧
      dicts w3 !! attrib = Some d ∧
      buffers w3 = buffers w2.
Proof.
  intros Hd.
  assert (fresh (dom (dicts w)) ≠ attrib) as Hfresh.
  { intros Heq. apply (is_fresh (dom (dicts w))). rewrite Heq.
    apply elem_of_dom. eauto. }
  unfold UnknownInsertedObject.model_from_data, UnkownObjectBuffer.__init__,
    UnknownInsertedObject.data_from_model, UnkownObjectBuffer.get_object_data.
  unfold_store. cbn.
  eexists _, _, _, _, _. split; [reflexivity|]. cbn.
  rewrite lookup_insert_eq. cbn. rewrite Hd. cbn.
  unfold Gtk.get_text. cbn. rewrite Nat.sub_0_r, substring_all.
  split; [reflexivity|]. cbn.
  rewrite lookup_insert_eq, lookup_insert_eq, lookup_insert_ne by done.
  repeat (split; [done|]).
  intros k v. unfold dict_setitem. unfold_store. cbn.
  rewrite lookup_insert_eq. cbn. eexists. split; [reflexivity|]. cbn.
  rewrite lookup_insert_eq, lookup_insert_ne by done.
  by rewrite lookup_insert_ne by done.
Qed.

Lemma model_round_trip_witness :
  ∃ buffer copy w1 w2,
    UnknownInsertedObject.model_from_data 2%positive "x = 1"
      (object_store {[ "type" := "code" ]} "") = Some (buffer, w1) ∧
    UnknownInsertedObject.data_from_model buffer w1 = Some ((copy, "x = 1"), w2) ∧
    dicts w2 !! copy = Some {[ "type" := "code" ]} ∧
    copy ≠ 2%positive.
Proof.
  destruct (model_round_trip (object_store {[ "type" := "code" ]} "") 2%positive
              {[ "type" := "code" ]} "x = 1")
    as (buffer & copy & w1 & w2 & b & Hmodel & Hdata & _ & _ & _ & Hcopy & Hne & _);
    [reflexivity|].
  exists buffer, copy, w1, w2. by repeat split.
Defined.

(** X3: The buffer stores the dictionary it was given, so a key that the
    caller sets in that dictionary afterwards shows in what the model
    gives back. *)
Lemma model_shares_attrib
    (w : World) (attrib : ref) (d : gmap string string) (data k v : string) :
  dicts w !! attrib = Some d →
  ∃ copy w',
    (buffer ← UnknownInsertedObject.model_from_data attrib data;
     dict_setitem attrib k v;;
     UnknownInsertedObject.data_from_model buffer) w = Some ((copy, data), w') ∧
    dicts w' !! copy = Some (<[k := v]> d).
Proof.
  intros Hd.
  unfold UnknownInsertedObject.model_from_data, UnkownObjectBuffer.__init__,
    UnknownInsertedObject.data_from_model, UnkownObjectBuffer.get_object_data,
    dict_setitem.
  unfold_store. cbn. rewrite Hd. cbn.
  rewrite lookup_insert_eq. cbn. rewrite lookup_insert_eq. cbn.
  unfold Gtk.get_text. cbn. rewrite Nat.sub_0_r, substring_all.
  eexists _, _. split; [reflexivity|]. cbn. by rewrite lookup_insert_eq.
Qed.

(** ** Editability follows the parent *)

(** [on_parent_set] with a parent: whatever the previous parent was, the
    flags of the view become the parent's [editable], and the widget is
    connected to the parent's [notify::editable]. *)
Lemma on_parent_set_editable
    (w : World) (self : TextViewWidget.t) (old : option ref) (p : ref)
    (c : Gtk.Container) :
  TextViewWidget.get_parent self = Some p →
  containers w !! p = Some c →
  (∀ o, old = Some o → is_Some (containers w !! o)) →
  ∃ self' w' c' h,
    TextViewWidget.on_parent_set self old w = Some (self', w') ∧
    Gtk.editable (TextViewWidget.view self') = Gtk.c_editable c ∧
    Gtk.cursor_visible (TextViewWidget.view self') = Gtk.c_editable c ∧
    containers w' !! p = Some c' ∧
    Gtk.c_editable c' = Gtk.c_editable c ∧
    TextViewWidget.parent_notify_h self' = Some h ∧
    (h, CbOnParentNotify) ∈ Gtk.notify_editable c'.
Proof.
  intros Hp Hc Hold.
  unfold TextViewWidget.on_parent_set.
  destruct old as [o|], (TextViewWidget.parent_notify_h self) as [h0|] eqn:Hh;
    try (unfold TextViewWidget.get_parent, InsertedObjectWidget.get_parent in *;
         unfold connect_notify; unfold_store; cbn; rewrite Hp; cbn; rewrite Hc; cbn;
         rewrite Hc; eexists _, _, _, _; split; [reflexivity|]; cbn;
         rewrite lookup_insert_eq; repeat split; apply elem_of_app; right;
         apply list_elem_of_here).
  destruct (Hold o eq_refl) as [co Hco].
  unfold TextViewWidget.get_parent, InsertedObjectWidget.get_parent in *.
  unfold disconnect, connect_notify. unfold_store. cbn. rewrite Hco. cbn.
  rewrite Hp. cbn.
  destruct (decide (o = p)) as [->|Hne].
  - rewrite lookup_insert_eq. cbn. rewrite lookup_insert_eq.
    eexists _, _, _, _. split; [reflexivity|]. cbn.
    rewrite lookup_insert_eq. simplify_eq.
    repeat split. apply elem_of_app; right; apply list_elem_of_here.
  - rewrite lookup_insert_ne, Hc by done. cbn.
    rewrite lookup_insert_ne, Hc by done.
    eexists _, _, _, _. split; [reflexivity|]. cbn.
    rewrite lookup_insert_eq.
    repeat split. apply elem_of_app; right; apply list_elem_of_here.
Qed.

(** [on_parent_notify]: the flags of the view become the parent's
    [editable]. *)
Lemma on_parent_notify_editable
    (w : World) (self : TextViewWidget.t) (p : ref) (c : Gtk.Container) :
  TextViewWidget.get_parent self = Some p →
  containers w !! p = Some c →
  TextViewWidget.on_parent_notify self w
    = Some (TextViewWidget.set_editable self (Gtk.c_editable c), w).
Proof.
  intros Hp Hc. unfold TextViewWidget.on_parent_notify. unfold_store.
  rewrite Hp. cbn. by rewrite Hc.
Qed.

Lemma notifies_elem (cbs : list (positive * Callback)) (h : positive) :
  (h, CbOnParentNotify) ∈ cbs → notifies cbs = true.
Proof.
  intros Hin. apply existsb_exists. exists (h, CbOnParentNotify).
  split; [by apply list_elem_of_In | done].
Qed.

Lemma set_editable_twice (self : TextViewWidget.t) (e : bool) :
  TextViewWidget.set_editable (TextViewWidget.set_editable self e) e
    = TextViewWidget.set_editable self e.
Proof. reflexivity. Qed.

(** The handlers of [notify::editable], run for a widget whose parent
    is in the store. *)
Lemma run_notify_result
    (cbs : list (positive * Callback)) (w : World) (self : TextViewWidget.t)
    (p : ref) (c : Gtk.Container) :
  TextViewWidget.get_parent self = Some p →
  containers w !! p = Some c →
  Toolkit.run_notify cbs self w
    = Some (if notifies cbs then TextViewWidget.set_editable self (Gtk.c_editable c)
            else self, w).
Proof.
  intros Hp Hc. revert self Hp. induction cbs as [|[h cb] cbs IH]; intros self Hp.
  - reflexivity.
  - cbn [Toolkit.run_notify].
    destruct cb; cbn;
      try (rewrite (bind_run _ _ w w self eq_refl); by apply IH).
    rewrite (bind_run _ _ _ _ _ (on_parent_notify_editable w self p c Hp Hc)).
    rewrite IH by done. rewrite set_editable_twice. by destruct (notifies cbs).
Qed.

(** Handlers that are not the widget's leave it alone. *)
Lemma run_notify_foreign
    (cbs : list (positive * Callback)) (w : World) (self : TextViewWidget.t) :
  notifies cbs = false → Toolkit.run_notify cbs self w = Some (self, w).
Proof.
  induction cbs as [|[h cb] cbs IH]; [done|].
  cbn. destruct cb; cbn; try done; intros H;
    rewrite (bind_run _ _ w w self eq_refl); by apply IH.
Qed.

Lemma linked_init (w : World) (buffer : ref) :
  Toolkit.unlinked w → linked w (TextViewWidget.__init__ buffer).
Proof.
  intros Hun. split; [reflexivity|]. split; [done|].
  intros q c h Hq Hin. by destruct (Hun q c h Hq).
Qed.

(** The widget has got its first parent. *)
Lemma on_parent_set_anchored
    (w : World) (self : TextViewWidget.t) (p : ref) (c : Gtk.Container) :
  TextViewWidget.get_parent self = Some p →
  containers w !! p = Some c →
  TextViewWidget.on_parent_set self None w
    = Some (TextViewWidget.set_parent_notify_h
              (TextViewWidget.set_editable self (Gtk.c_editable c))
              (Some (next_handler w)),
            connected w p c).
Proof.
  intros Hp Hc. unfold TextViewWidget.on_parent_set, connect_notify. unfold_store.
  cbn. rewrite Hp. cbn. rewrite Hc. cbn. by rewrite Hc.
Qed.

(** The widget has been taken out of its parent. *)
Lemma on_parent_set_removed
    (w : World) (self : TextViewWidget.t) (o : ref) (c : Gtk.Container)
    (h : positive) :
  TextViewWidget.get_parent self = None →
  TextViewWidget.parent_notify_h self = Some h →
  containers w !! o = Some c →
  TextViewWidget.on_parent_set self (Some o) w
    = Some (TextViewWidget.set_parent_notify_h self None, disconnected w o c h).
Proof.
  intros Hp Hh Hc. unfold TextViewWidget.on_parent_set, disconnect. unfold_store.
  rewrite Hh. cbn. rewrite Hc. cbn.
  unfold TextViewWidget.get_parent, InsertedObjectWidget.get_parent in *.
  cbn. by rewrite Hp.
Qed.

Lemma linked_anchored
    (w : World) (self : TextViewWidget.t) (p : ref) (c : Gtk.Container) :
  linked w self →
  TextViewWidget.get_parent self = None →
  containers w !! p = Some c →
  linked (connected w p c)
    (TextViewWidget.set_parent_notify_h
       (TextViewWidget.set_editable
          (TextViewWidget.set_base self
             (InsertedObjectWidget.set_parent (TextViewWidget.base self) (Some p)))
          (Gtk.c_editable c))
       (Some (next_handler w))).
Proof.
  intros (Hh & _ & Honly) Hnone Hc. split; [exact Hh|]. split.
  - intros p' [= <-]. eexists _, _. cbn. rewrite lookup_insert_eq.
    split; [reflexivity|]. split; [reflexivity|]. cbn.
    apply elem_of_app; right; apply list_elem_of_here.
  - intros q cq h Hq Hin. cbn in Hq.
    destruct (decide (p = q)) as [->|Hne].
    + rewrite lookup_insert_eq in Hq. simplify_eq. cbn in Hin.
      apply elem_of_app in Hin as [Hin|Hin].
      * destruct (Honly q c h Hc Hin) as [Hq _]. congruence.
      * apply list_elem_of_singleton in Hin. by simplify_eq.
    + rewrite lookup_insert_ne in Hq by done.
      destruct (Honly q cq h Hq Hin) as [Hq' _]. congruence.
Qed.

Lemma linked_removed
    (w : World) (self : TextViewWidget.t) (o : ref) (c : Gtk.Container)
    (h : positive) :
  linked w self →
  TextViewWidget.get_parent self = Some o →
  TextViewWidget.parent_notify_h self = Some h →
  containers w !! o = Some c →
  linked (disconnected w o c h)
    (TextViewWidget.set_parent_notify_h
       (TextViewWidget.set_base self
          (InsertedObjectWidget.set_parent (TextViewWidget.base self) None))
       None).
Proof.
  intros (Hh & _ & Honly) Hp Hnh Hc. split; [exact Hh|]. split; [done|].
  intros q cq h' Hq Hin. cbn in Hq. exfalso.
  destruct (decide (o = q)) as [->|Hne].
  - rewrite lookup_insert_eq in Hq. simplify_eq. cbn in Hin.
    apply list_elem_of_filter in Hin as [Hneq Hin]. cbn in Hneq.
    destruct (Honly q c h' Hc Hin) as [_ Hh']. congruence.
  - rewrite lookup_insert_ne in Hq by done.
    destruct (Honly q cq h' Hq Hin) as [Hq' _]. congruence.
Qed.

(** A change that touches neither the handlers of the containers nor
    the widget's connection keeps the agreement. *)
Lemma linked_frame (w w' : World) (self self' : TextViewWidget.t) :
  linked w self →
  same_widget self self' →
  TextViewWidget.get_parent self' = TextViewWidget.get_parent self →
  TextViewWidget.parent_notify_h self' = TextViewWidget.parent_notify_h self →
  (∀ q, Gtk.notify_editable <$> containers w' !! q
        = Gtk.notify_editable <$> containers w !! q) →
  linked w' self'.
Proof.
  intros (Hh & Hparent & Honly) (_ & _ & Hh' & _) Hp Hn Hsame.
  split; [congruence|]. split.
  - intros p Hp'. rewrite Hp in Hp'. destruct (Hparent p Hp') as (c & h & Hc & Hnh & Hin).
    specialize (Hsame p). rewrite Hc in Hsame. cbn in Hsame.
    destruct (containers w' !! p) as [c'|]; [|done]. cbn in Hsame. simplify_eq.
    exists c', h. split; [done|]. split; [congruence|]. by rewrite Hsame.
  - intros q c' h Hq Hin. specialize (Hsame q). rewrite Hq in Hsame. cbn in Hsame.
    destruct (containers w !! q) as [c|] eqn:Hc; [|done]. cbn in Hsame. simplify_eq.
    rewrite Hsame in Hin. rewrite Hp, Hn. by apply (Honly q c h).
Qed.

Lemma read_container_inv (r : ref) (w w1 : World) (c : Gtk.Container) :
  read_container r w = Some (c, w1) → containers w !! r = Some c ∧ w1 = w.
Proof.
  unfold read_container, lift. destruct (containers w !! r); [|done].
  by intros [= -> ->].
Qed.

(** Every event keeps the agreement between the widget and the store. *)
Lemma handle_linked default self e w self' w' :
  linked w self →
  Toolkit.handle default self e w = Some (self', w') →
  linked w' self'.
Proof.
  intros Hl H. destruct e; cbn [Toolkit.handle] in H.
  - unfold Toolkit.widget_set_parent in H.
    destruct (TextViewWidget.get_parent self) eqn:Hp;
      [unfold_store; by simplify_eq|].
    apply bind_inv in H as (c & w1 & Hc & H).
    apply read_container_inv in Hc as [Hc ->].
    unfold Toolkit.parent_changed in H. cbn in H.
    rewrite (proj1 Hl), Hp in H. cbn [Toolkit.run_parent_set] in H.
    erewrite bind_run in H; [|by apply (on_parent_set_anchored _ _ parent c)].
    unfold_store. simplify_eq. by apply linked_anchored.
  - unfold Toolkit.widget_unparent in H.
    destruct (TextViewWidget.get_parent self) as [o|] eqn:Hp;
      [|unfold_store; by simplify_eq].
    destruct (proj1 (proj2 Hl) o Hp) as (c & h & Hc & Hh & _).
    unfold Toolkit.parent_changed in H. cbn in H.
    rewrite (proj1 Hl), Hp in H. cbn [Toolkit.run_parent_set] in H.
    erewrite bind_run in H; [|by apply (on_parent_set_removed _ _ o c h)].
    unfold_store. simplify_eq. by apply linked_removed.
  - unfold Toolkit.container_set_editable in H.
    apply bind_inv in H as (c & w1 & Hc & H).
    apply read_container_inv in Hc as [Hc ->].
    destruct (Bool.eqb _ _); [unfold_store; by simplify_eq|].
    apply bind_inv in H as ([] & w2 & Hw & H).
    apply run_notify_same in H as (Hs & Hp & Hh & ->).
    unfold_store. simplify_eq.
    apply (linked_frame w _ self); try done.
    intros q. cbn. destruct (decide (container = q)) as [->|Hne].
    + by rewrite lookup_insert_eq, Hc.
    + by rewrite lookup_insert_ne.
  - unfold_store. simplify_eq.
    eapply linked_frame; [exact Hl | by destruct self as [[] ? [] ?] | done..].
  - apply grab_cursor_same in H as (Hs & Hp & Hh & Hc & _).
    apply (linked_frame w _ self); try done. by rewrite Hc.
  - unfold Toolkit.view_move_cursor in H.
    apply bind_inv in H as (self1 & w1 & Hrun & H).
    apply run_move_cursor_same in Hrun as (-> & Hc & _).
    run_cases.
    eapply linked_frame;
      [exact Hl | apply same_widget_refl | done | done
      | by intros q; cbn; rewrite Hc].
Qed.

Lemma run_linked default es self w self' w' :
  linked w self →
  Toolkit.run default self es w = Some (self', w') →
  linked w' self'.
Proof.
  revert self w. induction es as [|e es IH]; intros self w Hl H.
  - cbn in H. unfold_store. by simplify_eq.
  - cbn [Toolkit.run] in H. apply bind_inv in H as (self1 & w1 & He & H).
    eapply IH; [|exact H]. by eapply handle_linked.
Qed.

(** C3: at any time in the life of a [TextViewWidget], putting it into
    a parent sets the [editable] and the [cursor_visible] flag of its
    view to the parent's [editable], and so does every change of the
    [editable] property of the parent it is in; after either event the
    flags of the view equal the parent's [editable]. *)
Theorem editable_follows_parent
    (default : Toolkit.MoveCursor) (buffer : ref) (w0 : World)
    (es : list Toolkit.Event) (self : TextViewWidget.t) (w : World) :
  Toolkit.unlinked w0 →
  Toolkit.run default (TextViewWidget.__init__ buffer) es w0 = Some (self, w) →
  (∀ p c,
     TextViewWidget.get_parent self = None →
     containers w !! p = Some c →
     ∃ self' w' c',
       Toolkit.handle default self (Toolkit.SetParent p) w = Some (self', w') ∧
       TextViewWidget.get_parent self' = Some p ∧
       containers w' !! p = Some c' ∧
       Gtk.c_editable c' = Gtk.c_editable c ∧
       Gtk.editable (TextViewWidget.view self') = Gtk.c_editable c' ∧
       Gtk.cursor_visible (TextViewWidget.view self') = Gtk.c_editable c') ∧
  (∀ p c setting,
     TextViewWidget.get_parent self = Some p →
     containers w !! p = Some c →
     Gtk.c_editable c ≠ setting →
     ∃ self' w' c',
       Toolkit.handle default self (Toolkit.ContainerSetEditable p setting) w
         = Some (self', w') ∧
       TextViewWidget.get_parent self' = Some p ∧
       containers w' !! p = Some c' ∧
       Gtk.c_editable c' = setting ∧
       Gtk.editable (TextViewWidget.view self') = setting ∧
       Gtk.cursor_visible (TextViewWidget.view self') = setting).
Proof.
  intros Hun Hrun.
  assert (linked w self) as Hl.
  { eapply run_linked; [|exact Hrun]. by apply linked_init. }
  split.
  - intros p c Hp Hc. cbn [Toolkit.handle]. unfold Toolkit.widget_set_parent.
    rewrite Hp. erewrite bind_run; [|unfold read_container, lift; by rewrite Hc].
    unfold Toolkit.parent_changed. cbn. rewrite (proj1 Hl), Hp.
    cbn [Toolkit.run_parent_set].
    erewrite bind_run; [|by apply (on_parent_set_anchored _ _ p c)].
    eexists _, _, _. split; [reflexivity|]. cbn. rewrite lookup_insert_eq.
    by repeat split.
  - intros p c setting Hp Hc Hne. cbn [Toolkit.handle].
    unfold Toolkit.container_set_editable.
    erewrite bind_run; [|unfold read_container, lift; by rewrite Hc].
    destruct (Bool.eqb_spec (Gtk.c_editable c) setting) as [|_]; [done|].
    erewrite bind_run; [|reflexivity].
    destruct (proj1 (proj2 Hl) p Hp) as (c0 & h & Hc0 & _ & Hin). simplify_eq.
    erewrite run_notify_result; [|exact Hp|cbn; apply lookup_insert_eq].
    rewrite (notifies_elem _ h Hin).
    eexists _, _, _. split; [reflexivity|]. cbn. rewrite lookup_insert_eq.
    split; [by destruct self as [[] ? [] ?]|]. by repeat split.
Qed.

Lemma page_store_unlinked : Toolkit.unlinked page_store.
Proof.
  intros q c h Hq Hin. cbn in Hq.
  apply lookup_singleton_Some in Hq as [_ <-]. cbn in Hin.
  apply list_elem_of_singleton in Hin. discriminate.
Qed.

Lemma editable_follows_parent_witness :
  ∃ self w self' w',
    Toolkit.run step_by_one (TextViewWidget.__init__ 1%positive)
      [Toolkit.SetParent 5%positive] page_store = Some (self, w) ∧
    Gtk.editable (TextViewWidget.view self) = false ∧
    Toolkit.handle step_by_one self (Toolkit.ContainerSetEditable 5%positive true) w
      = Some (self', w') ∧
    Gtk.editable (TextViewWidget.view self') = true ∧
    Gtk.cursor_visible (TextViewWidget.view self') = true.
Proof.
  destruct (Toolkit.run step_by_one (TextViewWidget.__init__ 1%positive)
              [Toolkit.SetParent 5%positive] page_store)
    as [[self w]|] eqn:Hrun; [|vm_compute in Hrun; discriminate].
  pose proof Hrun as Hself. vm_compute in Hself. injection Hself as <- <-.
  destruct (proj2 (editable_follows_parent step_by_one 1%positive page_store _ _ _
                     page_store_unlinked Hrun)
              5%positive
              (Gtk.mkContainer false
                 [(1%positive, CbForeign 0); (2%positive, CbOnParentNotify)])
              true)
    as (self' & w' & c' & Hhandle & _ & _ & _ & Hed & Hcv);
    [reflexivity | reflexivity | discriminate |].
  eexists _, _, self', w'. split; [reflexivity|]. split; [reflexivity|].
  split; [exact Hhandle|]. split; [exact Hed | exact Hcv].
Defined.

(** * Further properties of the module *)

(** ** Attributes of an unknown object *)

(** X1: [parse_attrib] returns the dictionary it is given, with a type: the
    type it had, or ["unknown"] when it had none.  The other keys and
    the other objects of the store are as before, and parsing a second
    time changes nothing. *)
Theorem parse_attrib_defaults_type
    (w : World) (attrib : ref) (d : gmap string string) :
  dicts w !! attrib = Some d →
  ∃ w' d',
    UnknownInsertedObject.parse_attrib attrib w = Some (attrib, w') ∧
    dicts w' !! attrib = Some d' ∧
    d' !! "type" = Some (default UnknownInsertedObject.name (d !! "type")) ∧
    (∀ k, k ≠ "type" → d' !! k = d !! k) ∧
    (∀ r, r ≠ attrib → dicts w' !! r = dicts w !! r) ∧
    buffers w' = buffers w ∧
    UnknownInsertedObject.parse_attrib attrib w' = Some (attrib, w').
Proof.
  intros Hd. unfold UnknownInsertedObject.parse_attrib. unfold_store.
  rewrite Hd. cbn. destruct (d !! "type") as [ty|] eqn:Hty; cbn.
  - exists w, d. rewrite Hd. cbn. rewrite Hty. cbn. repeat (split; [done|]). done.
  - eexists _, _. split; [reflexivity|]. cbn. rewrite lookup_insert_eq. cbn.
    rewrite lookup_insert_eq. cbn.
    split; [reflexivity|]. split; [reflexivity|].
    split; [intros k Hk; by rewrite lookup_insert_ne|].
    split; [intros r Hr; by rewrite lookup_insert_ne|].
    split; [done|]. by rewrite lookup_insert_eq.
Qed.

Lemma parse_attrib_defaults_type_witness :
  ∃ w',
    UnknownInsertedObject.parse_attrib 2%positive (object_store {[ "lang" := "c" ]} "")
      = Some (2%positive, w') ∧
    dicts w' !! 2%positive = Some {[ "type" := "unknown"; "lang" := "c" ]}.
Proof.
  destruct (parse_attrib_defaults_type (object_store {[ "lang" := "c" ]} "")
              2%positive {[ "lang" := "c" ]})
    as (w' & d' & Hrun & Hd' & _); [reflexivity|].
  exists w'. split; [exact Hrun|].
  vm_compute in Hrun. injection Hrun as <-. reflexivity.
Defined.

(** ** Reading the model *)

(** X2: [data_from_model] gives the whole content of the buffer, wherever
    its marks are, and a new dictionary with the entries of the stored
    attrib.  It changes nothing that was in the store, so that reading
    again gives the same text and another new dictionary. *)
Theorem data_from_model_reads_only
    (w : World) (buffer attrib : ref) (b : Gtk.TextBuffer) (d : gmap string string) :
  buffers w !! buffer = Some b →
  Gtk.object_attrib b = Some attrib →
  dicts w !! attrib = Some d →
  ∃ copy w',
    UnknownInsertedObject.data_from_model buffer w = Some ((copy, Gtk.text b), w') ∧
    dicts w !! copy = None ∧
    dicts w' = <[copy := d]> (dicts w) ∧
    buffers w' = buffers w ∧
    containers w' = containers w ∧
    trace w' = trace w ∧
    ∃ copy' w'',
      UnknownInsertedObject.data_from_model buffer w'
        = Some ((copy', Gtk.text b), w'') ∧
      copy' ≠ copy ∧
      dicts w'' !! copy' = Some d ∧
      dicts w'' !! copy = Some d ∧
      dicts w'' !! attrib = Some d.
Proof.
  intros Hb Hattr Hd.
  assert (dicts w !! fresh (dom (dicts w)) = None) as Hnew.
  { apply not_elem_of_dom, is_fresh. }
  assert (fresh (dom (dicts w)) ≠ attrib) as Hne by congruence.
  unfold UnknownInsertedObject.data_from_model, UnkownObjectBuffer.get_object_data.
  unfold_store. rewrite Hb. cbn. rewrite Hattr. cbn. rewrite Hd. cbn.
  unfold Gtk.get_text. cbn. rewrite Nat.sub_0_r, substring_all.
  eexists _, _. split; [reflexivity|]. cbn. repeat (split; [done|]).
  rewrite Hb. cbn. rewrite Hattr. cbn. rewrite lookup_insert_ne, Hd by done. cbn.
  unfold Gtk.get_text. cbn. rewrite Nat.sub_0_r, substring_all.
  eexists _, _. split; [reflexivity|]. cbn.
  set (copy := fresh (dom (dicts w))).
  set (copy' := fresh (dom (<[copy := d]> (dicts w)))).
  assert (copy' ≠ copy) as Hne'.
  { intros Heq. apply (is_fresh (dom (<[copy := d]> (dicts w)))).
    fold copy'. rewrite Heq. apply elem_of_dom. rewrite lookup_insert_eq. eauto. }
  assert (copy' ≠ attrib) as Hne''.
  { intros Heq. apply (is_fresh (dom (<[copy := d]> (dicts w)))).
    fold copy'. rewrite Heq. apply elem_of_dom.
    rewrite lookup_insert_ne, Hd by done. eauto. }
  split; [done|]. rewrite lookup_insert_eq.
  rewrite lookup_insert_ne, lookup_insert_eq by done.
  by rewrite !lookup_insert_ne, Hd by done.
Qed.

Lemma data_from_model_reads_only_witness :
  ∃ copy w',
    UnknownInsertedObject.data_from_model 1%positive
      (mkWorld {[ 1%positive := Gtk.mkTextBuffer "x = 1" 2 0 (Some 2%positive) ]}
         {[ 2%positive := {[ "type" := "code" ]} ]} ∅ 1%positive [])
      = Some ((copy, "x = 1"), w') ∧
    copy ≠ 2%positive ∧
    dicts w' !! copy = Some {[ "type" := "code" ]}.
Proof.
  destruct (data_from_model_reads_only
              (mkWorld {[ 1%positive := Gtk.mkTextBuffer "x = 1" 2 0 (Some 2%positive) ]}
                 {[ 2%positive := {[ "type" := "code" ]} ]} ∅ 1%positive [])
              1%positive 2%positive (Gtk.mkTextBuffer "x = 1" 2 0 (Some 2%positive))
              {[ "type" := "code" ]})
    as (copy & w' & Hrun & Hnew & Hdicts & _);
    [reflexivity | reflexivity | reflexivity |].
  exists copy, w'. split; [exact Hrun|]. split.
  - intros ->. vm_compute in Hnew. discriminate.
  - rewrite Hdicts. apply lookup_insert_eq.
Defined.

Lemma model_shares_attrib_witness :
  ∃ copy w',
    (buffer ← UnknownInsertedObject.model_from_data 2%positive "x = 1";
     dict_setitem 2%positive "lang" "python";;
     UnknownInsertedObject.data_from_model buffer)
      (object_store {[ "type" := "code" ]} "") = Some ((copy, "x = 1"), w') ∧
    dicts w' !! copy = Some {[ "lang" := "python"; "type" := "code" ]}.
Proof.
  destruct (model_shares_attrib (object_store {[ "type" := "code" ]} "") 2%positive
              {[ "type" := "code" ]} "x = 1" "lang" "python")
    as (copy & w' & Hrun & Hcopy); [reflexivity|].
  exists copy, w'. split; [exact Hrun | exact Hcopy].
Defined.

(** ** The fallback widget, whatever the collaborators do *)

Lemma percent_plain (s arg : string) : Py.plain s = true → Py.percent s arg = None.
Proof. intros H. unfold Py.percent. by rewrite (percent_go_plain s arg false H). Qed.



(** X5: A translation of the two messages that has lost the [%s] makes the
    constructor raise, for every buffer. *)
Theorem unknown_widget_translation_without_conversion
    (env : Env) (w : World) (buffer : ref) :
  Py.plain (gettext env "No plugin available to display objects of type: %s") = true →
  Py.plain (gettext env "Plugin %s is required to display this object.") = true →
  UnkownObjectWidget.__init__ env buffer w = None.
Proof.
  intros Hno Hplugin.
  unfold UnkownObjectWidget.__init__, UnkownObjectWidget._add_load_plugin_bar.
  unfold_store.
  destruct (buffers w !! buffer) as [b|]; [cbn|done].
  destruct (Gtk.object_attrib b) as [attrib|]; [cbn|done].
  destruct (dicts w !! attrib) as [d|]; [cbn|done].
  destruct (match d !! "type" with
            | Some ty => if Py.truthy ty then find_plugin env ty else None
            | None => None
            end) as [[[[key name] activatable] klass]|].
  - by rewrite (percent_plain _ name Hplugin).
  - by rewrite (percent_plain _ _ Hno).
Qed.

Lemma unknown_widget_translation_without_conversion_witness :
  UnkownObjectWidget.__init__ broken_catalogue 1%positive
    (object_store {[ "type" := "code" ]} "x = 1") = None.
Proof.
  apply (unknown_widget_translation_without_conversion broken_catalogue); reflexivity.
Defined.

(** X6: From the attributes and the text of an object to its widget: the
    type shown is the one [parse_attrib] leaves in the attrib, which is
    ["unknown"] for an attrib without a type, and the text view shows a
    buffer that holds the text of the object and the attrib itself. *)
Theorem unknown_object_from_data
    (env : Env) (w : World) (attrib : ref) (d : gmap string string)
    (data pre post : string) :
  dicts w !! attrib = Some d →
  default UnknownInsertedObject.name (d !! "type") = ""
    ∨ find_plugin env (default UnknownInsertedObject.name (d !! "type")) = None →
  gettext env "No plugin available to display objects of type: %s"
    = pre +:+ "%s" +:+ post →
  Py.plain pre = true → Py.plain post = true →
  ∃ self buffer b w',
    (attrib ← UnknownInsertedObject.parse_attrib attrib;
     model ← UnknownInsertedObject.model_from_data attrib data;
     UnknownInsertedObject.create_widget env model) w = Some (self, w') ∧
    InsertedObjectWidget.vbox (TextViewWidget.base self)
      = [packed (Gtk.Label
                   (pre +:+ default UnknownInsertedObject.name (d !! "type") +:+ post));
         packed text_window] ∧
    Gtk.view_buffer (TextViewWidget.view self) = Some buffer ∧
    buffers w' !! buffer = Some b ∧
    Gtk.text b = data ∧
    Gtk.object_attrib b = Some attrib.
Proof.
  intros Hd Hnone Hmsg Hpre Hpost.
  unfold UnknownInsertedObject.parse_attrib, UnknownInsertedObject.model_from_data,
    UnkownObjectBuffer.__init__, UnknownInsertedObject.create_widget,
    UnkownObjectWidget.__init__.
  unfold_store. rewrite Hd. cbn.
  destruct (d !! "type") as [ty|] eqn:Hty; cbn in *.
  - rewrite lookup_insert_eq. cbn. rewrite Hd. cbn. rewrite Hty, Hmsg.
    rewrite (percent_one pre post _ Hpre Hpost). cbn.
    assert ((if Py.truthy ty then find_plugin env ty else None) = None) as ->.
    { destruct Hnone as [-> | ->]; [done | by destruct (Py.truthy ty)]. }
    eexists _, _, _, _. split; [reflexivity|]. cbn. rewrite lookup_insert_eq.
    by repeat split.
  - rewrite lookup_insert_eq. cbn. rewrite lookup_insert_eq. cbn.
    rewrite lookup_insert_eq, Hmsg. cbn.
    rewrite (percent_one pre post _ Hpre Hpost). cbn.
    destruct Hnone as [Hname | ->]; [done|].
    eexists _, _, _, _. split; [reflexivity|]. cbn. rewrite lookup_insert_eq.
    by repeat split.
Qed.

Lemma unknown_object_from_data_witness :
  ∃ self w',
    (attrib ← UnknownInsertedObject.parse_attrib 2%positive;
     model ← UnknownInsertedObject.model_from_data attrib "x = 1";
     UnknownInsertedObject.create_widget (untranslated (one_plugin true)) model)
      (object_store {[ "lang" := "c" ]} "") = Some (self, w') ∧
    InsertedObjectWidget.vbox (TextViewWidget.base self)
      = [packed (Gtk.Label "No plugin available to display objects of type: unknown");
         packed text_window].
Proof.
  destruct (unknown_object_from_data (untranslated (one_plugin true))
              (object_store {[ "lang" := "c" ]} "") 2%positive {[ "lang" := "c" ]}
              "x = 1" "No plugin available to display objects of type: " "")
    as (self & buffer & b & w' & Hrun & Hbox & _);
    [reflexivity | by right | reflexivity | reflexivity | reflexivity |].
  exists self, w'. split; [exact Hrun | exact Hbox].
Defined.

(** ** The wrap width *)

Lemma run_callbacks_app preferred (l1 l2 : list Z) (self : Sizing.t) :
  Sizing.run_callbacks preferred (l1 ++ l2) self
    = Sizing.run_callbacks preferred l2 (Sizing.run_callbacks preferred l1 self).
Proof.
  revert self. induction l1 as [|x l1 IH]; intros self; [done|].
  cbn. unfold Sizing.callback.
  destruct (preferred _) as [minimum natural]. cbn. apply IH.
Qed.

Lemma run_callbacks_keeps preferred (l : list Z) (self : Sizing.t) :
  Sizing.widget (Sizing.run_callbacks preferred l self) = Sizing.widget self ∧
  Sizing.idle (Sizing.run_callbacks preferred l self) = Sizing.idle self.
Proof.
  revert self. induction l as [|x l IH]; intros self; [done|].
  cbn. unfold Sizing.callback.
  destruct (preferred _) as [minimum natural]. cbn.
  destruct (IH (Sizing.mk (Sizing.widget self)
                  (if Z.eqb x (-1) then natural else Z.max x minimum, (-1)%Z)
                  (Sizing.idle self))) as [Hw Hi].
  by rewrite Hw, Hi.
Qed.

Lemma set_textview_wrap_width_queue (widths : list Z) (self : Sizing.t) :
  Sizing.widget (foldl Sizing.set_textview_wrap_width self widths) = Sizing.widget self ∧
  Sizing.idle (foldl Sizing.set_textview_wrap_width self widths)
    = Sizing.idle self ++ widths.
Proof.
  revert self. induction widths as [|x l IH]; intros self; cbn.
  - by rewrite app_nil_r.
  - destruct (IH (Sizing.set_textview_wrap_width self x)) as [-> ->]. cbn.
    by rewrite <- app_assoc.
Qed.

(** X8: After any number of calls of [set_textview_wrap_width] and one turn
    of the main loop, no callback is left waiting, and the width
    requested is that of the last call: the natural width of the box
    for [-1], and otherwise the width asked for or the minimum width of
    the box, whichever is larger.  The height is left to the toolkit.
    When the minimum is not above the natural width, the width requested
    is never below the minimum. *)
Theorem wrap_width_last_call
    (preferred : Sizing.PreferredWidth) (self : Sizing.t) (widths : list Z) (width : Z) :
  let self' :=
    Sizing.main_iteration preferred
      (foldl Sizing.set_textview_wrap_width self (widths ++ [width])) in
  let minimum := (preferred (InsertedObjectWidget.vbox (Sizing.widget self))).1 in
  let natural := (preferred (InsertedObjectWidget.vbox (Sizing.widget self))).2 in
  Sizing.idle self' = [] ∧
  Sizing.widget self' = Sizing.widget self ∧
  Sizing.size_request self'
    = (if decide (width = (-1)%Z) then natural else Z.max width minimum, (-1)%Z) ∧
  ((minimum ≤ natural)%Z → (minimum ≤ (Sizing.size_request self').1)%Z).
Proof.
  cbn zeta. unfold Sizing.main_iteration.
  destruct (set_textview_wrap_width_queue (widths ++ [width]) self) as [Hw Hi].
  rewrite Hw, Hi, app_assoc, run_callbacks_app.
  set (s1 := Sizing.run_callbacks preferred (Sizing.idle self ++ widths) _).
  destruct (run_callbacks_keeps preferred (Sizing.idle self ++ widths)
              (Sizing.mk (Sizing.widget self)
                 (Sizing.size_request
                    (foldl Sizing.set_textview_wrap_width self (widths ++ [width])))
                 [])) as [Hw1 Hi1].
  fold s1 in Hw1, Hi1. cbn in Hw1, Hi1.
  cbn. unfold Sizing.callback. rewrite Hw1, Hi1.
  destruct (preferred _) as [minimum natural]. cbn.
  destruct (Z.eqb_spec width (-1)) as [->|Hne]; cbn.
  - by repeat split.
  - rewrite decide_False by done. repeat split. lia.
Qed.

Lemma wrap_width_last_call_witness :
  let self' :=
    Sizing.main_iteration (λ _, (120, 300)%Z)
      (foldl Sizing.set_textview_wrap_width
         (Sizing.mk InsertedObjectWidget.__init__ (0, 0)%Z [])
         ([(-1)%Z; 500%Z] ++ [80%Z])) in
  Sizing.size_request self' = (120, -1)%Z ∧
  (120 ≤ (Sizing.size_request self').1)%Z.
Proof.
  destruct (wrap_width_last_call (λ _, (120, 300)%Z)
              (Sizing.mk InsertedObjectWidget.__init__ (0, 0)%Z [])
              [(-1)%Z; 500%Z] 80%Z) as (_ & _ & Hrequest & Hminimum).
  split; [exact Hrequest|]. apply Hminimum. cbn. lia.
Defined.

(** ** The hand-off, from taking the cursor to giving it back *)

(** A widget keeps the buffer and the connections it was constructed
    with. *)
Lemma run_keeps_buffer default buffer es w0 self w :
  Toolkit.run default (TextViewWidget.__init__ buffer) es w0 = Some (self, w) →
  TextViewWidget.buffer self = buffer ∧
  Gtk.view_buffer (TextViewWidget.view self) = Some buffer ∧
  Gtk.move_cursor_handlers (TextViewWidget.view self) = [CbOnMoveCursor].
Proof.
  intros H. by apply run_same in H as (_ & _ & _ & -> & -> & ->).
Qed.

Lemma on_move_cursor_released
    (w : World) (self : TextViewWidget.t) (view : Gtk.TextView)
    (step : Gtk.MovementStep) (count : Z) (ext : bool)
    (r : ref) (b : Gtk.TextBuffer) :
  Gtk.view_buffer view = Some r →
  buffers w !! r = Some b →
  TextViewWidget.on_move_cursor self view step count ext w
    = Some ((self, Py.PyNone),
            mkWorld (buffers w) (dicts w) (containers w) (next_handler w)
              (trace w ++ released b count ext)).
Proof.
  intros Hv Hb. rewrite (on_move_cursor_eq w self view r b Hv Hb). cbn zeta.
  unfold released. repeat case_match; try done.
  destruct w. cbn. by rewrite app_nil_r.
Qed.

(** move-cursor on the view of a constructed widget: what the handler
    emits, and then the movement itself. *)
Lemma view_move_cursor_run
    (default : Toolkit.MoveCursor) (w : World) (self : TextViewWidget.t)
    (step : Gtk.MovementStep) (count : Z) (ext : bool)
    (r : ref) (b : Gtk.TextBuffer) :
  Gtk.view_buffer (TextViewWidget.view self) = Some r →
  Gtk.move_cursor_handlers (TextViewWidget.view self) = [CbOnMoveCursor] →
  buffers w !! r = Some b →
  Toolkit.view_move_cursor default self step count ext w
    = Some (self,
            mkWorld (<[r := default b step count ext]> (buffers w)) (dicts w)
              (containers w) (next_handler w) (trace w ++ released b count ext)).
Proof.
  intros Hv Hh Hb. unfold Toolkit.view_move_cursor. rewrite Hh.
  cbn [Toolkit.run_move_cursor].
  unfold mbind, M_bind, mret, M_ret.
  rewrite (on_move_cursor_released w self _ step count ext r b Hv Hb). cbn.
  unfold_store. rewrite Hv. cbn. by rewrite Hb.
Qed.

(** [grab_cursor]: the signal, the caret at the boundary, the focus. *)
Lemma grab_cursor_run
    (w : World) (self : TextViewWidget.t) (position : Z) (b : Gtk.TextBuffer) :
  buffers w !! TextViewWidget.buffer self = Some b →
  ∃ self',
    TextViewWidget.grab_cursor self position w
      = Some (self',
              mkWorld
                (<[TextViewWidget.buffer self :=
                     Gtk.mkTextBuffer (Gtk.text b) (boundary b position)
                       (boundary b position) (Gtk.object_attrib b)]> (buffers w))
                (dicts w) (containers w) (next_handler w)
                (trace w ++ [Emit GrabCursor position;
                             PlaceCursor (TextViewWidget.buffer self)
                               (boundary b position);
                             GrabFocus])) ∧
    TextViewWidget.buffer self' = TextViewWidget.buffer self ∧
    Gtk.view_buffer (TextViewWidget.view self')
      = Gtk.view_buffer (TextViewWidget.view self) ∧
    Gtk.move_cursor_handlers (TextViewWidget.view self')
      = Gtk.move_cursor_handlers (TextViewWidget.view self) ∧
    Gtk.has_focus (TextViewWidget.view self') = true.
Proof.
  intros Hb.
  unfold TextViewWidget.grab_cursor, InsertedObjectWidget.grab_cursor,
    TextViewWidget.do_grab_cursor, TextViewWidget.buffer_place_cursor,
    TextViewWidget.view_grab_focus, boundary.
  unfold_store. cbn. rewrite Hb. cbn.
  destruct (Z.eqb position POSITION_BEGIN); cbn; rewrite Hb; cbn;
    eexists; (split; [rewrite <- !app_assoc; reflexivity|]); by repeat split.
Qed.

(** The caret of a buffer after [do_grab_cursor] and the direction that
    leads out of the widget from there. *)
Lemma released_at_boundary (b : Gtk.TextBuffer) (position count : Z) :
  position = POSITION_BEGIN ∧ (count < 0)%Z
    ∨ position = POSITION_END ∧ (0 < count)%Z →
  released
    (Gtk.mkTextBuffer (Gtk.text b) (boundary b position) (boundary b position)
       (Gtk.object_attrib b)) count false
  = [Emit ReleaseCursor position].
Proof.
  unfold released, boundary. cbn.
  intros [[-> Hc] | [-> Hc]]; cbn.
  - by rewrite (proj2 (Z.ltb_lt count 0) Hc).
  - rewrite Nat.eqb_refl, (proj2 (Z.ltb_lt 0 count) Hc). cbn.
    destruct (Z.ltb_spec count 0); [lia|]. by rewrite andb_false_r.
Qed.

(** X9: At any time in the life of a widget: when it takes the cursor at
    one end and the next movement leads out of that end, with no
    selection being extended, the cursor is given back at the same end.
    The page view sees the request, the caret at the boundary, the
    focus and the release, in this order. *)
Theorem grab_then_move_out_releases
    (default : Toolkit.MoveCursor) (buffer : ref) (w0 : World)
    (es : list Toolkit.Event) (self : TextViewWidget.t) (w : World)
    (b : Gtk.TextBuffer) (position : Z) (step : Gtk.MovementStep) (count : Z) :
  Toolkit.run default (TextViewWidget.__init__ buffer) es w0 = Some (self, w) →
  buffers w !! buffer = Some b →
  position = POSITION_BEGIN ∧ (count < 0)%Z
    ∨ position = POSITION_END ∧ (0 < count)%Z →
  ∃ self' w',
    Toolkit.run default self
      [Toolkit.GrabCursorAt position; Toolkit.MoveCursorBy step count false] w
      = Some (self', w') ∧
    trace w' = trace w ++ [Emit GrabCursor position;
                           PlaceCursor buffer (boundary b position);
                           GrabFocus;
                           Emit ReleaseCursor position].
Proof.
  intros Hrun Hb Hout.
  apply run_keeps_buffer in Hrun as (Hbuf & Hview & Hh).
  destruct (grab_cursor_run w self position b) as (self1 & Hgrab & Hbuf1 & Hview1 & Hh1 & _);
    [by rewrite Hbuf|].
  rewrite Hbuf in Hgrab.
  cbn [Toolkit.run Toolkit.handle].
  rewrite (bind_run _ _ _ _ _ Hgrab).
  erewrite bind_run; cycle 1.
  { eapply (view_move_cursor_run default _ self1 step count false buffer);
      [congruence | congruence | cbn; apply lookup_insert_eq]. }
  eexists _, _. split; [reflexivity|]. cbn.
  rewrite (released_at_boundary b position count Hout).
  by rewrite <- app_assoc.
Qed.

Lemma grab_then_move_out_releases_witness :
  ∃ self' w',
    Toolkit.run step_by_one (TextViewWidget.__init__ 1%positive)
      [Toolkit.GrabCursorAt POSITION_BEGIN;
       Toolkit.MoveCursorBy Gtk.VISUAL_POSITIONS (-1) false]
      (store_with 1%positive (abc_at 2)) = Some (self', w') ∧
    trace w' = [Emit GrabCursor POSITION_BEGIN; PlaceCursor 1%positive 0; GrabFocus;
                Emit ReleaseCursor POSITION_BEGIN].
Proof.
  apply (grab_then_move_out_releases step_by_one 1%positive
           (store_with 1%positive (abc_at 2)) [] (TextViewWidget.__init__ 1%positive)
           (store_with 1%positive (abc_at 2)) (abc_at 2) POSITION_BEGIN
           Gtk.VISUAL_POSITIONS (-1)%Z);
    [reflexivity | reflexivity | left; split; [reflexivity | lia]].
Defined.

Lemma released_inside (b : Gtk.TextBuffer) (position count : Z) :
  Gtk.text b ≠ "" →
  position = POSITION_BEGIN ∧ (0 ≤ count)%Z
    ∨ position = POSITION_END ∧ (count ≤ 0)%Z →
  released
    (Gtk.mkTextBuffer (Gtk.text b) (boundary b position) (boundary b position)
       (Gtk.object_attrib b)) count false
  = [].
Proof.
  intros Htext. unfold released, boundary. cbn.
  destruct (Gtk.text b) as [|c s]; [done|]. cbn.
  intros [[-> Hc] | [-> Hc]]; cbn.
  - by destruct (Z.ltb_spec count 0); [lia|].
  - rewrite Nat.eqb_refl. cbn. by destruct (Z.ltb_spec 0 count); [lia|].
Qed.

(** X10: When the buffer is not empty and the movement after taking the
    cursor does not lead out of the end it was taken at, the widget
    keeps the cursor: nothing is released, and the movement is carried
    out on the buffer with the caret at that end. *)
Theorem grab_then_move_inside_keeps_cursor
    (default : Toolkit.MoveCursor) (buffer : ref) (w0 : World)
    (es : list Toolkit.Event) (self : TextViewWidget.t) (w : World)
    (b : Gtk.TextBuffer) (position : Z) (step : Gtk.MovementStep) (count : Z) :
  Toolkit.run default (TextViewWidget.__init__ buffer) es w0 = Some (self, w) →
  buffers w !! buffer = Some b →
  Gtk.text b ≠ "" →
  position = POSITION_BEGIN ∧ (0 ≤ count)%Z
    ∨ position = POSITION_END ∧ (count ≤ 0)%Z →
  ∃ self' w',
    Toolkit.run default self
      [Toolkit.GrabCursorAt position; Toolkit.MoveCursorBy step count false] w
      = Some (self', w') ∧
    trace w' = trace w ++ [Emit GrabCursor position;
                           PlaceCursor buffer (boundary b position);
                           GrabFocus] ∧
    buffers w' !! buffer
      = Some (default
                (Gtk.mkTextBuffer (Gtk.text b) (boundary b position)
                   (boundary b position) (Gtk.object_attrib b))
                step count false) ∧
    Gtk.has_focus (TextViewWidget.view self') = true.
Proof.
  intros Hrun Hb Htext Hin.
  apply run_keeps_buffer in Hrun as (Hbuf & Hview & Hh).
  destruct (grab_cursor_run w self position b)
    as (self1 & Hgrab & Hbuf1 & Hview1 & Hh1 & Hfocus); [by rewrite Hbuf|].
  rewrite Hbuf in Hgrab.
  cbn [Toolkit.run Toolkit.handle].
  rewrite (bind_run _ _ _ _ _ Hgrab).
  erewrite bind_run; cycle 1.
  { eapply (view_move_cursor_run default _ self1 step count false buffer);
      [congruence | congruence | cbn; apply lookup_insert_eq]. }
  eexists _, _. split; [reflexivity|]. cbn.
  rewrite (released_inside b position count Htext Hin), app_nil_r.
  split; [done|]. split; [apply lookup_insert_eq | done].
Qed.

Lemma grab_then_move_inside_keeps_cursor_witness :
  ∃ self' w',
    Toolkit.run step_by_one (TextViewWidget.__init__ 1%positive)
      [Toolkit.GrabCursorAt POSITION_END;
       Toolkit.MoveCursorBy Gtk.VISUAL_POSITIONS (-1) false]
      (store_with 1%positive (abc_at 0)) = Some (self', w') ∧
    trace w' = [Emit GrabCursor POSITION_END; PlaceCursor 1%positive 3; GrabFocus] ∧
    buffers w' !! 1%positive = Some (abc_at 2).
Proof.
  destruct (grab_then_move_inside_keeps_cursor step_by_one 1%positive
              (store_with 1%positive (abc_at 0)) [] (TextViewWidget.__init__ 1%positive)
              (store_with 1%positive (abc_at 0)) (abc_at 0) POSITION_END
              Gtk.VISUAL_POSITIONS (-1)%Z)
    as (self' & w' & Hrun & Htrace & Hbuf & _);
    [reflexivity | reflexivity | discriminate | right; split; [reflexivity | lia] |].
  exists self', w'. split; [exact Hrun|]. split; [exact Htrace | exact Hbuf].
Defined.

(** ** The connection to the parent, event by event *)

Lemma notifies_inv (cbs : list (positive * Callback)) :
  notifies cbs = true → ∃ h, (h, CbOnParentNotify) ∈ cbs.
Proof.
  intros H. apply existsb_exists in H as ([h cb] & Hin & Hcb).
  destruct cb; try done. exists h. by apply list_elem_of_In.
Qed.

Lemma grab_cursor_flags self position w self' w' :
  TextViewWidget.grab_cursor self position w = Some (self', w') →
  Gtk.editable (TextViewWidget.view self') = Gtk.editable (TextViewWidget.view self) ∧
  Gtk.cursor_visible (TextViewWidget.view self')
    = Gtk.cursor_visible (TextViewWidget.view self).
Proof.
  unfold TextViewWidget.grab_cursor, InsertedObjectWidget.grab_cursor,
    TextViewWidget.do_grab_cursor, TextViewWidget.buffer_place_cursor,
    TextViewWidget.view_grab_focus.
  destruct self as [[] ? [] ?]. intros H. run_cases; by repeat split.
Qed.

(** What an event does to the parent of the widget, to the containers
    and to the flags of the view: the widget is put into a parent and
    connected to it; or it is taken out of its parent and disconnected;
    or a container changes its [editable], which the widget follows when
    the container is its parent; or none of these. *)
Lemma handle_parent_cases default self e w self' w' :
  linked w self →
  Toolkit.handle default self e w = Some (self', w') →
  (∃ p c,
     TextViewWidget.get_parent self = None ∧
     containers w !! p = Some c ∧
     TextViewWidget.get_parent self' = Some p ∧
     containers w'
       = <[p := Gtk.mkContainer (Gtk.c_editable c)
                  (Gtk.notify_editable c ++ [(next_handler w, CbOnParentNotify)])]>
           (containers w) ∧
     TextViewWidget.view self'
       = TextViewWidget.view (TextViewWidget.set_editable self (Gtk.c_editable c)))
  ∨ (∃ o c h,
       TextViewWidget.get_parent self = Some o ∧
       TextViewWidget.parent_notify_h self = Some h ∧
       containers w !! o = Some c ∧
       TextViewWidget.get_parent self' = None ∧
       containers w'
         = <[o := Gtk.mkContainer (Gtk.c_editable c)
                    (filter (λ e, e.1 ≠ h) (Gtk.notify_editable c))]>
             (containers w) ∧
       TextViewWidget.view self' = TextViewWidget.view self)
  ∨ (∃ q c setting,
       e = Toolkit.ContainerSetEditable q setting ∧
       containers w !! q = Some c ∧
       Gtk.c_editable c ≠ setting ∧
       containers w'
         = <[q := Gtk.mkContainer setting (Gtk.notify_editable c)]> (containers w) ∧
       (TextViewWidget.get_parent self = Some q ∧
        self' = TextViewWidget.set_editable self setting
        ∨ TextViewWidget.get_parent self ≠ Some q ∧ self' = self))
  ∨ (TextViewWidget.get_parent self' = TextViewWidget.get_parent self ∧
     containers w' = containers w ∧
     (from_toolkit e = true →
      Gtk.editable (TextViewWidget.view self')
        = Gtk.editable (TextViewWidget.view self) ∧
      Gtk.cursor_visible (TextViewWidget.view self')
        = Gtk.cursor_visible (TextViewWidget.view self))).
Proof.
  intros Hl H. destruct e; cbn [Toolkit.handle] in H.
  - unfold Toolkit.widget_set_parent in H.
    destruct (TextViewWidget.get_parent self) eqn:Hp.
    { right; right; right. unfold_store. by simplify_eq. }
    left. apply bind_inv in H as (c & w1 & Hc & H).
    apply read_container_inv in Hc as [Hc ->].
    unfold Toolkit.parent_changed in H. cbn in H.
    rewrite (proj1 Hl), Hp in H. cbn [Toolkit.run_parent_set] in H.
    erewrite bind_run in H; [|by apply (on_parent_set_anchored _ _ parent c)].
    unfold_store. simplify_eq. by exists parent, c.
  - unfold Toolkit.widget_unparent in H.
    destruct (TextViewWidget.get_parent self) as [o|] eqn:Hp; cycle 1.
    { right; right; right. unfold_store. by simplify_eq. }
    right; left.
    destruct (proj1 (proj2 Hl) o Hp) as (c & h & Hc & Hh & _).
    unfold Toolkit.parent_changed in H. cbn in H.
    rewrite (proj1 Hl), Hp in H. cbn [Toolkit.run_parent_set] in H.
    erewrite bind_run in H; [|by apply (on_parent_set_removed _ _ o c h)].
    unfold_store. simplify_eq. by exists o, c, h.
  - unfold Toolkit.container_set_editable in H.
    apply bind_inv in H as (c & w1 & Hc & H).
    apply read_container_inv in Hc as [Hc ->].
    destruct (Bool.eqb_spec (Gtk.c_editable c) setting) as [Heq|Hne].
    { right; right; right. unfold_store. by simplify_eq. }
    right; right; left. exists container, c, setting.
    apply bind_inv in H as ([] & w2 & Hw & H).
    unfold write_container in Hw. simplify_eq.
    destruct (notifies (Gtk.notify_editable c)) eqn:Hn.
    + apply notifies_inv in Hn as Hin. destruct Hin as [h Hin].
      destruct (proj2 (proj2 Hl) container c h Hc Hin) as [Hp _].
      erewrite run_notify_result in H; [|exact Hp|cbn; apply lookup_insert_eq].
      rewrite Hn in H. simplify_eq. cbn. repeat (split; [done|]). by left.
    + rewrite run_notify_foreign in H by done. simplify_eq. cbn.
      repeat (split; [done|]). right. split; [|done].
      intros Hp. destruct (proj1 (proj2 Hl) container Hp) as (c0 & h & Hc0 & _ & Hin).
      simplify_eq. by rewrite (notifies_elem _ h Hin) in Hn.
  - right; right; right. unfold_store. simplify_eq. by destruct self as [[] ? [] ?].
  - right; right; right.
    destruct (grab_cursor_flags _ _ _ _ _ H) as [He Hc].
    apply grab_cursor_same in H as (_ & Hp & _ & Hcont & _). by repeat split.
  - right; right; right. unfold Toolkit.view_move_cursor in H.
    apply bind_inv in H as (self1 & w1 & Hrun & H).
    apply run_move_cursor_same in Hrun as (-> & Hc & _).
    run_cases. by repeat split.
Qed.

Lemma run_linked_init default buffer w0 es self w :
  Toolkit.unlinked w0 →
  Toolkit.run default (TextViewWidget.__init__ buffer) es w0 = Some (self, w) →
  linked w self.
Proof. intros Hun Hrun. eapply run_linked; [|exact Hrun]. by apply linked_init. Qed.

(** A container that is not the parent is not connected to the widget. *)
Lemma connections_none w self q c :
  linked w self →
  containers w !! q = Some c →
  TextViewWidget.get_parent self ≠ Some q →
  connections c = 0%nat.
Proof.
  intros (_ & _ & Honly) Hc Hp. unfold connections.
  destruct (filter _ (Gtk.notify_editable c)) as [|[h cb] l] eqn:Hf; [done|].
  assert ((h, cb) ∈ filter (λ e, is_notify e.2 = true) (Gtk.notify_editable c)) as Hin.
  { rewrite Hf. apply list_elem_of_here. }
  apply list_elem_of_filter in Hin as [Hcb Hin]. destruct cb; try done.
  by destruct (Honly q c h Hc Hin).
Qed.

Lemma handle_connected_once default self e w self' w' :
  linked w self →
  connected_once w self →
  Toolkit.handle default self e w = Some (self', w') →
  connected_once w' self'.
Proof.
  intros Hl Honce H p' c' Hp' Hc'.
  destruct (handle_parent_cases _ _ _ _ _ _ Hl H)
    as [(p & c & Hp & Hc & Hp1 & Hw & _)
       |[(o & c & h & Hp & Hh & Hc & Hp1 & _)
        |[(q & c & setting & _ & Hc & _ & Hw & Hself)
         |(Hp1 & Hw & _)]]].
  - rewrite Hp1 in Hp'. simplify_eq. rewrite Hw, lookup_insert_eq in Hc'.
    simplify_eq. unfold connections. cbn. rewrite filter_app, length_app.
    assert (connections c = 0%nat) as Hzero.
    { apply (connections_none w self p' c Hl Hc). by rewrite Hp. }
    unfold connections in Hzero. by rewrite Hzero.
  - congruence.
  - assert (TextViewWidget.get_parent self' = TextViewWidget.get_parent self) as Hsame.
    { by destruct Hself as [[_ ->] | [_ ->]]. }
    rewrite Hsame in Hp'. rewrite Hw in Hc'.
    destruct (decide (q = p')) as [->|Hne].
    + rewrite lookup_insert_eq in Hc'. simplify_eq.
      by apply (Honce p' c Hp' Hc).
    + rewrite lookup_insert_ne in Hc' by done. by apply (Honce p' c' Hp' Hc').
  - rewrite Hp1 in Hp'. rewrite Hw in Hc'. by apply (Honce p' c' Hp' Hc').
Qed.

Lemma run_connected_once default es self w self' w' :
  linked w self →
  connected_once w self →
  Toolkit.run default self es w = Some (self', w') →
  connected_once w' self'.
Proof.
  revert self w. induction es as [|e es IH]; intros self w Hl Honce H.
  - cbn in H. unfold_store. by simplify_eq.
  - cbn [Toolkit.run] in H. apply bind_inv in H as (self1 & w1 & He & H).
    eapply IH; [| |exact H]; [by eapply handle_linked | by eapply handle_connected_once].
Qed.

(** X12: At any time in the life of a widget its [on_parent_notify] is
    connected once to the container that is its parent and not at all
    to any other container: connections do not pile up when the widget
    moves from parent to parent, and none is left behind. *)
Theorem parent_connected_exactly_once
    (default : Toolkit.MoveCursor) (buffer : ref) (w0 : World)
    (es : list Toolkit.Event) (self : TextViewWidget.t) (w : World)
    (q : ref) (c : Gtk.Container) :
  Toolkit.unlinked w0 →
  Toolkit.run default (TextViewWidget.__init__ buffer) es w0 = Some (self, w) →
  containers w !! q = Some c →
  connections c = if decide (TextViewWidget.get_parent self = Some q) then 1%nat
                  else 0%nat.
Proof.
  intros Hun Hrun Hc.
  pose proof (run_linked_init _ _ _ _ _ _ Hun Hrun) as Hl.
  case_decide as Hp.
  - eapply (run_connected_once default es (TextViewWidget.__init__ buffer) w0);
      [by apply linked_init | done | exact Hrun | exact Hp | exact Hc].
  - by apply (connections_none w self q c).
Qed.

Lemma parent_connected_exactly_once_witness :
  ∃ self w c,
    Toolkit.run step_by_one (TextViewWidget.__init__ 1%positive)
      [Toolkit.SetParent 5%positive; Toolkit.Unparent; Toolkit.SetParent 5%positive]
      page_store = Some (self, w) ∧
    containers w !! 5%positive = Some c ∧
    Gtk.notify_editable c = [(1%positive, CbForeign 0); (3%positive, CbOnParentNotify)] ∧
    connections c = 1%nat.
Proof.
  destruct (Toolkit.run step_by_one (TextViewWidget.__init__ 1%positive)
              [Toolkit.SetParent 5%positive; Toolkit.Unparent;
               Toolkit.SetParent 5%positive] page_store)
    as [[self w]|] eqn:Hrun; [|vm_compute in Hrun; discriminate].
  destruct (containers w !! 5%positive) as [c|] eqn:Hc;
    [|vm_compute in Hrun; injection Hrun as <- <-; vm_compute in Hc; discriminate].
  pose proof (parent_connected_exactly_once step_by_one 1%positive page_store _ _ _
                5%positive c page_store_unlinked Hrun Hc) as Honce.
  exists self, w, c.
  pose proof Hrun as Hself. vm_compute in Hself. injection Hself as <- <-.
  pose proof Hc as Hc'. vm_compute in Hc'. injection Hc' as <-.
  split; [reflexivity|]. split; [exact Hc|]. split; [reflexivity | exact Honce].
Defined.

Lemma handle_synced default self e w self' w' :
  linked w self →
  synced w self →
  from_toolkit e = true →
  Toolkit.handle default self e w = Some (self', w') →
  synced w' self'.
Proof.
  intros Hl Hs He H p' Hp'.
  destruct (handle_parent_cases _ _ _ _ _ _ Hl H)
    as [(p & c & Hp & Hc & Hp1 & Hw & Hview)
       |[(o & c & h & Hp & Hh & Hc & Hp1 & _)
        |[(q & c & setting & _ & Hc & _ & Hw & Hself)
         |(Hp1 & Hw & Hflags)]]].
  - rewrite Hp1 in Hp'. simplify_eq. rewrite Hw, lookup_insert_eq, Hview.
    eexists. split; [reflexivity|]. by split.
  - congruence.
  - rewrite Hw. destruct Hself as [[Hq ->] | [Hq ->]].
    + change (TextViewWidget.get_parent self = Some p') in Hp'.
      assert (p' = q) as -> by congruence.
      rewrite lookup_insert_eq. eexists. split; [reflexivity|]. by split.
    + rewrite lookup_insert_ne by congruence. by apply Hs.
  - rewrite Hp1 in Hp'. rewrite Hw. destruct (Hflags He) as [-> ->]. by apply Hs.
Qed.

Lemma run_synced default es self w self' w' :
  linked w self →
  synced w self →
  forallb from_toolkit es = true →
  Toolkit.run default self es w = Some (self', w') →
  synced w' self'.
Proof.
  revert self w. induction es as [|e es IH]; intros self w Hl Hs Hes H.
  - cbn in H. unfold_store. by simplify_eq.
  - cbn [Toolkit.run] in H. apply bind_inv in H as (self1 & w1 & He & H).
    cbn in Hes. apply andb_prop in Hes as [Hfrom Hes].
    eapply IH; [| |exact Hes|exact H];
      [by eapply handle_linked | by eapply handle_synced].
Qed.

(** X13: As long as nobody calls [set_editable] on the widget directly, the
    view of a widget that has a parent can be edited exactly when the
    parent can, and shows its caret exactly then: whatever else happens
    to the widget, the flags of its view are the parent's [editable]. *)
Theorem editable_always_follows_parent
    (default : Toolkit.MoveCursor) (buffer : ref) (w0 : World)
    (es : list Toolkit.Event) (self : TextViewWidget.t) (w : World) (p : ref) :
  Toolkit.unlinked w0 →
  forallb from_toolkit es = true →
  Toolkit.run default (TextViewWidget.__init__ buffer) es w0 = Some (self, w) →
  TextViewWidget.get_parent self = Some p →
  ∃ c, containers w !! p = Some c ∧
       Gtk.editable (TextViewWidget.view self) = Gtk.c_editable c ∧
       Gtk.cursor_visible (TextViewWidget.view self) = Gtk.c_editable c.
Proof.
  intros Hun Hes Hrun Hp.
  eapply (run_synced default es (TextViewWidget.__init__ buffer) w0);
    [by apply linked_init | done | exact Hes | exact Hrun | exact Hp].
Qed.

Lemma editable_always_follows_parent_witness :
  ∃ self w c,
    Toolkit.run step_by_one (TextViewWidget.__init__ 1%positive)
      [Toolkit.SetParent 5%positive;
       Toolkit.ContainerSetEditable 5%positive true;
       Toolkit.GrabCursorAt POSITION_BEGIN;
       Toolkit.ContainerSetEditable 5%positive false]
      page_store = Some (self, w) ∧
    containers w !! 5%positive = Some c ∧
    Gtk.c_editable c = false ∧
    Gtk.editable (TextViewWidget.view self) = Gtk.c_editable c.
Proof.
  destruct (Toolkit.run step_by_one (TextViewWidget.__init__ 1%positive)
              [Toolkit.SetParent 5%positive;
               Toolkit.ContainerSetEditable 5%positive true;
               Toolkit.GrabCursorAt POSITION_BEGIN;
               Toolkit.ContainerSetEditable 5%positive false] page_store)
    as [[self w]|] eqn:Hrun; [|vm_compute in Hrun; discriminate].
  destruct (editable_always_follows_parent step_by_one 1%positive page_store
              [Toolkit.SetParent 5%positive;
               Toolkit.ContainerSetEditable 5%positive true;
               Toolkit.GrabCursorAt POSITION_BEGIN;
               Toolkit.ContainerSetEditable 5%positive false]
              self w 5%positive page_store_unlinked eq_refl Hrun)
    as (c & Hc & Hed & _).
  { vm_compute in Hrun. by injection Hrun as <- <-. }
  exists self, w, c. split; [reflexivity|]. split; [exact Hc|]. split; [|exact Hed].
  vm_compute in Hrun. injection Hrun as <- <-.
  vm_compute in Hc. by injection Hc as <-.
Defined.

(** X14: A container that is not the parent of the widget, such as one the
    widget was taken out of, can change its [editable] as it likes: the
    widget stays as it is. *)
Theorem other_container_leaves_widget
    (default : Toolkit.MoveCursor) (buffer : ref) (w0 : World)
    (es : list Toolkit.Event) (self : TextViewWidget.t) (w : World)
    (q : ref) (c : Gtk.Container) (setting : bool) :
  Toolkit.unlinked w0 →
  Toolkit.run default (TextViewWidget.__init__ buffer) es w0 = Some (self, w) →
  containers w !! q = Some c →
  TextViewWidget.get_parent self ≠ Some q →
  ∃ w',
    Toolkit.handle default self (Toolkit.ContainerSetEditable q setting) w
      = Some (self, w') ∧
    containers w' = <[q := Gtk.mkContainer setting (Gtk.notify_editable c)]> (containers w) ∧
    buffers w' = buffers w ∧
    trace w' = trace w.
Proof.
  intros Hun Hrun Hc Hp.
  pose proof (run_linked_init _ _ _ _ _ _ Hun Hrun) as Hl.
  assert (notifies (Gtk.notify_editable c) = false) as Hn.
  { destruct (notifies (Gtk.notify_editable c)) eqn:Hn; [|done].
    apply notifies_inv in Hn as [h Hin].
    by destruct (proj2 (proj2 Hl) q c h Hc Hin). }
  cbn [Toolkit.handle]. unfold Toolkit.container_set_editable.
  erewrite bind_run; [|unfold read_container, lift; by rewrite Hc].
  destruct (Bool.eqb_spec (Gtk.c_editable c) setting) as [<-|Hne].
  - exists w. split; [done|]. split; [|done].
    rewrite insert_id; [done|]. by destruct c.
  - erewrite bind_run; [|reflexivity].
    rewrite run_notify_foreign by done. eexists. split; [reflexivity|]. done.
Qed.

Lemma other_container_leaves_widget_witness :
  ∃ self w w',
    Toolkit.run step_by_one (TextViewWidget.__init__ 1%positive)
      [Toolkit.SetParent 5%positive; Toolkit.Unparent] page_store = Some (self, w) ∧
    Toolkit.handle step_by_one self (Toolkit.ContainerSetEditable 5%positive true) w
      = Some (self, w') ∧
    Gtk.editable (TextViewWidget.view self) = false.
Proof.
  destruct (Toolkit.run step_by_one (TextViewWidget.__init__ 1%positive)
              [Toolkit.SetParent 5%positive; Toolkit.Unparent] page_store)
    as [[self w]|] eqn:Hrun; [|vm_compute in Hrun; discriminate].
  pose proof Hrun as Hself. vm_compute in Hself. injection Hself as <- <-.
  destruct (other_container_leaves_widget step_by_one 1%positive page_store _ _ _
              5%positive (Gtk.mkContainer false [(1%positive, CbForeign 0)]) true
              page_store_unlinked Hrun)
    as (w' & Hhandle & _); [reflexivity | discriminate |].
  eexists _, _, w'. split; [reflexivity|]. split; [exact Hhandle | reflexivity].
Defined.

(** X16: At any time in the life of a widget whose buffer exists, no handler
    of the widget raises, whatever happens next: in particular
    [on_parent_notify], which reads the [editable] of the parent, never
    runs when the widget has no parent. *)
Theorem handlers_never_raise
    (default : Toolkit.MoveCursor) (buffer : ref) (w0 : World)
    (es : list Toolkit.Event) (self : TextViewWidget.t) (w : World)
    (e : Toolkit.Event) :
  Toolkit.unlinked w0 →
  Toolkit.run default (TextViewWidget.__init__ buffer) es w0 = Some (self, w) →
  is_Some (buffers w !! buffer) →
  known w e →
  is_Some (Toolkit.handle default self e w).
Proof.
  intros Hun Hrun [b Hb] Hknown.
  pose proof (run_linked_init _ _ _ _ _ _ Hun Hrun) as Hl.
  apply run_keeps_buffer in Hrun as (Hbuf & Hview & Hh).
  destruct e; cbn [Toolkit.handle known] in *.
  - destruct Hknown as [c Hc]. unfold Toolkit.widget_set_parent.
    destruct (TextViewWidget.get_parent self) eqn:Hp; [done|].
    erewrite bind_run; [|unfold read_container, lift; by rewrite Hc].
    unfold Toolkit.parent_changed. cbn. rewrite (proj1 Hl), Hp.
    cbn [Toolkit.run_parent_set].
    erewrite bind_run; [done|]. by apply (on_parent_set_anchored _ _ parent c).
  - unfold Toolkit.widget_unparent.
    destruct (TextViewWidget.get_parent self) as [o|] eqn:Hp; [|done].
    destruct (proj1 (proj2 Hl) o Hp) as (c & h & Hc & Hnh & _).
    unfold Toolkit.parent_changed. cbn. rewrite (proj1 Hl), Hp.
    cbn [Toolkit.run_parent_set].
    erewrite bind_run; [done|]. by apply (on_parent_set_removed _ _ o c h).
  - destruct Hknown as [c Hc]. unfold Toolkit.container_set_editable.
    erewrite bind_run; [|unfold read_container, lift; by rewrite Hc].
    destruct (Bool.eqb _ _); [done|].
    erewrite bind_run; [|reflexivity].
    destruct (notifies (Gtk.notify_editable c)) eqn:Hn.
    + apply notifies_inv in Hn as [h Hin].
      destruct (proj2 (proj2 Hl) container c h Hc Hin) as [Hp _].
      by erewrite run_notify_result; [|exact Hp|cbn; apply lookup_insert_eq].
    + by rewrite run_notify_foreign.
  - done.
  - destruct (grab_cursor_run w self position b) as (self' & -> & _); [by rewrite Hbuf|].
    done.
  - by rewrite (view_move_cursor_run default w self step count extend_selection
                  buffer b Hview Hh Hb).
Qed.

Lemma handlers_never_raise_witness :
  ∃ self w,
    Toolkit.run step_by_one (TextViewWidget.__init__ 1%positive)
      [Toolkit.SetParent 5%positive; Toolkit.Unparent] page_store = Some (self, w) ∧
    is_Some (Toolkit.handle step_by_one self
               (Toolkit.ContainerSetEditable 5%positive true) w).
Proof.
  destruct (Toolkit.run step_by_one (TextViewWidget.__init__ 1%positive)
              [Toolkit.SetParent 5%positive; Toolkit.Unparent] page_store)
    as [[self w]|] eqn:Hrun; [|vm_compute in Hrun; discriminate].
  exists self, w. split; [reflexivity|].
  apply (handlers_never_raise step_by_one 1%positive page_store
           [Toolkit.SetParent 5%positive; Toolkit.Unparent] self w _
           page_store_unlinked Hrun);
    vm_compute in Hrun; injection Hrun as <- <-; vm_compute; eauto.
Defined.

(** ** The data of the object and the events of the widget *)

Lemma same_content_refl w : same_content w w.
Proof. split; [done|]. intros r b Hb. by exists b. Qed.

Lemma same_content_trans w1 w2 w3 :
  same_content w1 w2 → same_content w2 w3 → same_content w1 w3.
Proof.
  intros [Hd1 Hb1] [Hd2 Hb2]. split; [congruence|].
  intros r b Hb. destruct (Hb1 r b Hb) as (b' & Hb' & Ht & Ha).
  destruct (Hb2 r b' Hb') as (b'' & Hb'' & Ht' & Ha').
  exists b''. split; [done|]. split; congruence.
Qed.

Lemma same_content_buffers w w' :
  buffers w' = buffers w → dicts w' = dicts w → same_content w w'.
Proof.
  intros Hb Hd. split; [done|]. intros r b Hr. exists b. by rewrite Hb.
Qed.

Lemma on_parent_set_store self old w self' w' :
  TextViewWidget.on_parent_set self old w = Some (self', w') →
  buffers w' = buffers w ∧ dicts w' = dicts w.
Proof.
  unfold TextViewWidget.on_parent_set, disconnect, connect_notify.
  destruct self as [[] ? [] ?]. intros H. run_cases; by split.
Qed.

Lemma run_parent_set_store cbs self old w self' w' :
  Toolkit.run_parent_set cbs self old w = Some (self', w') →
  buffers w' = buffers w ∧ dicts w' = dicts w.
Proof.
  revert self w. induction cbs as [|cb cbs IH]; intros self w H.
  - cbn in H. unfold_store. by simplify_eq.
  - cbn [Toolkit.run_parent_set] in H.
    apply bind_inv in H as (self1 & w1 & Hcb & H).
    apply IH in H as [Hb Hd].
    assert (buffers w1 = buffers w ∧ dicts w1 = dicts w) as [Hb1 Hd1].
    { destruct cb; try (unfold_store; by simplify_eq).
      by apply on_parent_set_store in Hcb. }
    split; congruence.
Qed.

Lemma on_move_cursor_store self view step count ext w res w' :
  TextViewWidget.on_move_cursor self view step count ext w = Some (res, w') →
  buffers w' = buffers w ∧ dicts w' = dicts w.
Proof.
  unfold TextViewWidget.on_move_cursor, TextViewWidget.release_cursor,
    InsertedObjectWidget.release_cursor.
  destruct self as [[] ? [] ?]. intros H. run_cases; by split.
Qed.

Lemma run_move_cursor_store cbs self step count ext w self' w' :
  Toolkit.run_move_cursor cbs self step count ext w = Some (self', w') →
  buffers w' = buffers w ∧ dicts w' = dicts w.
Proof.
  revert self w. induction cbs as [|cb cbs IH]; intros self w H.
  - cbn in H. unfold_store. by simplify_eq.
  - cbn [Toolkit.run_move_cursor] in H.
    apply bind_inv in H as (self1 & w1 & Hcb & H).
    apply IH in H as [Hb Hd].
    assert (buffers w1 = buffers w ∧ dicts w1 = dicts w) as [Hb1 Hd1].
    { destruct cb; try (unfold_store; by simplify_eq).
      apply bind_inv in Hcb as (res & w2 & Hrun & Hcb).
      apply on_move_cursor_store in Hrun as [? ?].
      unfold_store. by simplify_eq. }
    split; congruence.
Qed.

(** An event changes neither the text nor the attrib of any buffer,
    nor any dictionary, when the movement of the caret does not. *)
Lemma handle_content default self e w self' w' :
  moves_marks_only default →
  Toolkit.handle default self e w = Some (self', w') →
  same_content w w'.
Proof.
  intros Hdefault H. destruct e; cbn [Toolkit.handle] in H.
  - unfold Toolkit.widget_set_parent in H.
    destruct (TextViewWidget.get_parent self);
      [unfold_store; simplify_eq; apply same_content_refl|].
    apply bind_inv in H as (c & w1 & Hc & H).
    apply read_container_inv in Hc as [_ ->].
    apply run_parent_set_store in H as [Hb Hd]. by apply same_content_buffers.
  - unfold Toolkit.widget_unparent in H.
    destruct (TextViewWidget.get_parent self);
      [|unfold_store; simplify_eq; apply same_content_refl].
    apply run_parent_set_store in H as [Hb Hd]. by apply same_content_buffers.
  - unfold Toolkit.container_set_editable in H.
    apply bind_inv in H as (c & w1 & Hc & H).
    apply read_container_inv in Hc as [_ ->].
    destruct (Bool.eqb _ _); [unfold_store; simplify_eq; apply same_content_refl|].
    apply bind_inv in H as ([] & w2 & Hw & H).
    apply run_notify_same in H as (_ & _ & _ & ->).
    unfold write_container in Hw. simplify_eq. by apply same_content_buffers.
  - unfold_store. simplify_eq. apply same_content_refl.
  - unfold TextViewWidget.grab_cursor, InsertedObjectWidget.grab_cursor,
      TextViewWidget.do_grab_cursor, TextViewWidget.buffer_place_cursor,
      TextViewWidget.view_grab_focus in H.
    destruct self as [[] r [] ?]. run_cases;
      (split; [done|]); intros r' b' Hr'; cbn;
      (destruct (decide (r = r')) as [->|Hne];
       [rewrite lookup_insert_eq; simplify_eq; by eexists
       |rewrite lookup_insert_ne by done; by eexists]).
  - unfold Toolkit.view_move_cursor in H.
    apply bind_inv in H as (self1 & w1 & Hrun & H).
    apply run_move_cursor_store in Hrun as [Hb Hd].
    apply bind_inv in H as (r & w2 & Hr & H).
    apply bind_inv in H as (b & w3 & Hread & H).
    unfold_store.
    destruct (Gtk.view_buffer (TextViewWidget.view self1)); [|done].
    destruct (buffers w2 !! r) as [b0|] eqn:Hb0; [|done]. simplify_eq.
    split; [done|]. intros r' b' Hr'. cbn. rewrite <- Hb in Hr'.
    destruct (Hdefault b step count extend_selection) as [Ht Ha].
    destruct (decide (r = r')) as [->|Hne].
    + rewrite lookup_insert_eq. eexists. split; [done|]. split; congruence.
    + rewrite lookup_insert_ne by done. by eexists.
Qed.

Lemma run_content default es self w self' w' :
  moves_marks_only default →
  Toolkit.run default self es w = Some (self', w') →
  same_content w w'.
Proof.
  intros Hdefault. revert self w.
  induction es as [|e es IH]; intros self w H.
  - cbn in H. unfold_store. simplify_eq. apply same_content_refl.
  - cbn [Toolkit.run] in H. apply bind_inv in H as (self1 & w1 & He & H).
    eapply same_content_trans; [by eapply handle_content | by eapply IH].
Qed.

Lemma get_object_data_run
    (w : World) (buffer attrib : ref) (b : Gtk.TextBuffer) (d : gmap string string) :
  buffers w !! buffer = Some b →
  Gtk.object_attrib b = Some attrib →
  dicts w !! attrib = Some d →
  UnknownInsertedObject.data_from_model buffer w
    = Some ((fresh (dom (dicts w)), Gtk.text b),
            mkWorld (buffers w) (<[fresh (dom (dicts w)) := d]> (dicts w))
              (containers w) (next_handler w) (trace w)).
Proof.
  intros Hb Hattr Hd.
  unfold UnknownInsertedObject.data_from_model, UnkownObjectBuffer.get_object_data.
  unfold_store. rewrite Hb. cbn. rewrite Hattr. cbn. rewrite Hd. cbn.
  unfold Gtk.get_text. cbn. by rewrite Nat.sub_0_r, substring_all.
Qed.

Lemma step_by_one_moves_marks_only : moves_marks_only step_by_one.
Proof. by intros b step count ext. Qed.

(** X17: Nothing that happens to the widget changes what the model gives
    back: after any sequence of events (parents that come and go,
    editability, taking and releasing the cursor, movements of the
    caret that move the marks only) [data_from_model] returns the text
    and the entries of the attrib that the buffer had when the widget
    was constructed. *)
Theorem events_keep_object_data
    (default : Toolkit.MoveCursor) (buffer attrib : ref) (w0 : World)
    (es : list Toolkit.Event) (self : TextViewWidget.t) (w : World)
    (b0 : Gtk.TextBuffer) (d : gmap string string) :
  moves_marks_only default →
  buffers w0 !! buffer = Some b0 →
  Gtk.object_attrib b0 = Some attrib →
  dicts w0 !! attrib = Some d →
  Toolkit.run default (TextViewWidget.__init__ buffer) es w0 = Some (self, w) →
  ∃ copy w',
    UnknownInsertedObject.data_from_model buffer w = Some ((copy, Gtk.text b0), w') ∧
    dicts w' !! copy = Some d ∧
    dicts w' !! attrib = Some d.
Proof.
  intros Hdefault Hb0 Hattr Hd Hrun.
  destruct (run_content _ _ _ _ _ _ Hdefault Hrun) as [Hdicts Hbuffers].
  destruct (Hbuffers buffer b0 Hb0) as (b & Hb & Htext & Hattr').
  eexists _, _. split.
  - rewrite (get_object_data_run w buffer attrib b d); [by rewrite Htext|done| |];
      congruence.
  - cbn. rewrite lookup_insert_eq. split; [done|].
    rewrite lookup_insert_ne; [congruence|].
    intros Heq. apply (is_fresh (dom (dicts w))). rewrite Heq.
    apply elem_of_dom. rewrite Hdicts. eauto.
Qed.

Lemma events_keep_object_data_witness :
  ∃ self w copy w',
    Toolkit.run step_by_one (TextViewWidget.__init__ 1%positive)
      [Toolkit.GrabCursorAt POSITION_BEGIN;
       Toolkit.MoveCursorBy Gtk.VISUAL_POSITIONS 2 true;
       Toolkit.SetEditable false]
      (object_store {[ "type" := "code" ]} "x = 1") = Some (self, w) ∧
    buffers w !! 1%positive = Some (Gtk.mkTextBuffer "x = 1" 2 2 (Some 2%positive)) ∧
    UnknownInsertedObject.data_from_model 1%positive w = Some ((copy, "x = 1"), w') ∧
    dicts w' !! copy = Some {[ "type" := "code" ]}.
Proof.
  destruct (Toolkit.run step_by_one (TextViewWidget.__init__ 1%positive)
              [Toolkit.GrabCursorAt POSITION_BEGIN;
               Toolkit.MoveCursorBy Gtk.VISUAL_POSITIONS 2 true;
               Toolkit.SetEditable false]
              (object_store {[ "type" := "code" ]} "x = 1"))
    as [[self w]|] eqn:Hrun; [|vm_compute in Hrun; discriminate].
  destruct (events_keep_object_data step_by_one 1%positive 2%positive
              (object_store {[ "type" := "code" ]} "x = 1") _ self w
              (Gtk.mkTextBuffer "x = 1" 5 5 (Some 2%positive)) {[ "type" := "code" ]}
              step_by_one_moves_marks_only eq_refl eq_refl eq_refl Hrun)
    as (copy & w' & Hdata & Hcopy & _).
  exists self, w, copy, w'. split; [reflexivity|].
  split; [|split; [exact Hdata | exact Hcopy]].
  vm_compute in Hrun. by injection Hrun as <- <-.
Defined.

(** ** Edge cases *)

Lemma released_empty (b : Gtk.TextBuffer) (position count : Z) :
  Gtk.text b = "" →
  released
    (Gtk.mkTextBuffer (Gtk.text b) (boundary b position) (boundary b position)
       (Gtk.object_attrib b)) count false
  = match count with
    | Zneg _ => [Emit ReleaseCursor POSITION_BEGIN]
    | Zpos _ => [Emit ReleaseCursor POSITION_END]
    | Z0 => []
    end.
Proof.
  intros Htext. unfold released, boundary. rewrite Htext. cbn.
  destruct (Z.eqb position POSITION_BEGIN); by destruct count.
Qed.

(** X11: A widget whose buffer is empty is passed through: whichever end the
    cursor is taken at, the next movement gives it back on the side that
    the movement leads to, so that a cursor that entered at the
    beginning and moves on forwards leaves at the end. *)
Theorem empty_widget_is_passed_through
    (default : Toolkit.MoveCursor) (buffer : ref) (w0 : World)
    (es : list Toolkit.Event) (self : TextViewWidget.t) (w : World)
    (b : Gtk.TextBuffer) (position : Z) (step : Gtk.MovementStep) (count : Z) :
  Toolkit.run default (TextViewWidget.__init__ buffer) es w0 = Some (self, w) →
  buffers w !! buffer = Some b →
  Gtk.text b = "" →
  count ≠ 0%Z →
  ∃ self' w',
    Toolkit.run default self
      [Toolkit.GrabCursorAt position; Toolkit.MoveCursorBy step count false] w
      = Some (self', w') ∧
    trace w' = trace w ++ [Emit GrabCursor position;
                           PlaceCursor buffer 0;
                           GrabFocus;
                           Emit ReleaseCursor
                             (if Z.ltb count 0 then POSITION_BEGIN else POSITION_END)].
Proof.
  intros Hrun Hb Htext Hcount.
  apply run_keeps_buffer in Hrun as (Hbuf & Hview & Hh).
  destruct (grab_cursor_run w self position b)
    as (self1 & Hgrab & Hbuf1 & Hview1 & Hh1 & _); [by rewrite Hbuf|].
  rewrite Hbuf in Hgrab.
  cbn [Toolkit.run Toolkit.handle].
  rewrite (bind_run _ _ _ _ _ Hgrab).
  erewrite bind_run; cycle 1.
  { eapply (view_move_cursor_run default _ self1 step count false buffer);
      [congruence | congruence | cbn; apply lookup_insert_eq]. }
  eexists _, _. split; [reflexivity|]. cbn.
  rewrite (released_empty b position count Htext), <- app_assoc. cbn.
  assert (boundary b position = 0%nat) as ->.
  { unfold boundary. rewrite Htext. by destruct (Z.eqb _ _). }
  by destruct count.
Qed.

Lemma empty_widget_is_passed_through_witness :
  ∃ self' w',
    Toolkit.run step_by_one (TextViewWidget.__init__ 1%positive)
      [Toolkit.GrabCursorAt POSITION_BEGIN;
       Toolkit.MoveCursorBy Gtk.VISUAL_POSITIONS 1 false]
      (store_with 1%positive Gtk.new_buffer) = Some (self', w') ∧
    trace w' = [Emit GrabCursor POSITION_BEGIN; PlaceCursor 1%positive 0; GrabFocus;
                Emit ReleaseCursor POSITION_END].
Proof.
  apply (empty_widget_is_passed_through step_by_one 1%positive
           (store_with 1%positive Gtk.new_buffer) []
           (TextViewWidget.__init__ 1%positive)
           (store_with 1%positive Gtk.new_buffer) Gtk.new_buffer POSITION_BEGIN
           Gtk.VISUAL_POSITIONS 1%Z);
    [reflexivity | reflexivity | reflexivity | discriminate].
Defined.

(** X7: For an object without a type, or with the empty string as its type,
    [find_plugin] is not asked: the widget is the same whatever plugins
    are registered, also one for the empty string. *)
Theorem untyped_object_ignores_plugins
    (translate : string → string)
    (find find' : string → option (string * string * bool * string))
    (w : World) (buffer attrib : ref) (b : Gtk.TextBuffer) (d : gmap string string) :
  buffers w !! buffer = Some b →
  Gtk.object_attrib b = Some attrib →
  dicts w !! attrib = Some d →
  d !! "type" = None ∨ d !! "type" = Some "" →
  UnkownObjectWidget.__init__ (mkEnv translate find) buffer w
    = UnkownObjectWidget.__init__ (mkEnv translate find') buffer w.
Proof.
  intros Hb Hattr Hd Hty. unfold UnkownObjectWidget.__init__. unfold_store.
  rewrite Hb. cbn. rewrite Hattr. cbn. rewrite Hd. cbn.
  by destruct Hty as [-> | ->].
Qed.

Lemma untyped_object_ignores_plugins_witness :
  UnkownObjectWidget.__init__
    (mkEnv (λ s, s) (λ _, Some ("any", "Any", true, "AnyObjectType")))
    1%positive (object_store {[ "type" := "" ]} "x = 1")
  = UnkownObjectWidget.__init__ (mkEnv (λ s, s) (λ _, None))
      1%positive (object_store {[ "type" := "" ]} "x = 1").
Proof.
  apply (untyped_object_ignores_plugins (λ s, s)
           (λ _, Some ("any", "Any", true, "AnyObjectType")) (λ _, None)
           (object_store {[ "type" := "" ]} "x = 1") 1%positive 2%positive
           (Gtk.mkTextBuffer "x = 1" 5 5 (Some 2%positive)) {[ "type" := "" ]});
    [reflexivity | reflexivity | reflexivity | right; reflexivity].
Defined.

(** X15: Taking the widget out of its parent leaves the flags of its view as
    they were, forgets the handler id and leaves no handler of the
    widget on the container. *)
Theorem unparent_keeps_flags
    (default : Toolkit.MoveCursor) (buffer : ref) (w0 : World)
    (es : list Toolkit.Event) (self : TextViewWidget.t) (w : World) (o : ref) :
  Toolkit.unlinked w0 →
  Toolkit.run default (TextViewWidget.__init__ buffer) es w0 = Some (self, w) →
  TextViewWidget.get_parent self = Some o →
  ∃ self' w' c',
    Toolkit.handle default self Toolkit.Unparent w = Some (self', w') ∧
    TextViewWidget.get_parent self' = None ∧
    TextViewWidget.parent_notify_h self' = None ∧
    TextViewWidget.view self' = TextViewWidget.view self ∧
    containers w' !! o = Some c' ∧
    ∀ h, (h, CbOnParentNotify) ∉ Gtk.notify_editable c'.
Proof.
  intros Hun Hrun Hp.
  pose proof (run_linked_init _ _ _ _ _ _ Hun Hrun) as Hl.
  destruct (proj1 (proj2 Hl) o Hp) as (c & h & Hc & Hh & _).
  cbn [Toolkit.handle]. unfold Toolkit.widget_unparent. rewrite Hp.
  unfold Toolkit.parent_changed. cbn. rewrite (proj1 Hl), Hp.
  cbn [Toolkit.run_parent_set].
  erewrite bind_run; [|by apply (on_parent_set_removed _ _ o c h)].
  eexists _, _, _. split; [reflexivity|]. cbn. rewrite lookup_insert_eq.
  repeat (split; [done|]). cbn. intros h' Hin.
  apply list_elem_of_filter in Hin as [Hne Hin]. cbn in Hne.
  destruct (proj2 (proj2 Hl) o c h' Hc Hin) as [_ Hh']. congruence.
Qed.

Lemma unparent_keeps_flags_witness :
  ∃ self w self' w',
    Toolkit.run step_by_one (TextViewWidget.__init__ 1%positive)
      [Toolkit.SetParent 5%positive] page_store = Some (self, w) ∧
    Toolkit.handle step_by_one self Toolkit.Unparent w = Some (self', w') ∧
    Gtk.editable (TextViewWidget.view self') = false ∧
    containers w' !! 5%positive
      = Some (Gtk.mkContainer false [(1%positive, CbForeign 0)]).
Proof.
  destruct (Toolkit.run step_by_one (TextViewWidget.__init__ 1%positive)
              [Toolkit.SetParent 5%positive] page_store)
    as [[self w]|] eqn:Hrun; [|vm_compute in Hrun; discriminate].
  pose proof Hrun as Hself. vm_compute in Hself. injection Hself as <- <-.
  destruct (unparent_keeps_flags step_by_one 1%positive page_store _ _ _ 5%positive
              page_store_unlinked Hrun)
    as (self' & w' & c' & Hhandle & _); [reflexivity|].
  eexists _, _, self', w'. split; [reflexivity|]. split; [exact Hhandle|].
  vm_compute in Hhandle. by injection Hhandle as <- <-.
Defined.
